(** * delta_exc_data.py: candle pagination, fetchers, ranking and prompts

    A shallow embedding of [delta_exc_data.py] and the properties its
    specification states about it.

    Conventions of the model.
    - Python values that come out of [response.json()] are [json] terms.
      Numbers are Python ints ([JInt]); literals with a fraction or an
      exponent (Python floats) are left out of the model: the program never
      computes with them, a candle's [time] is the exchange's unix second.
    - A call that may raise returns an [outcome]: [Returned v] or
      [Raised e].  [exn] lists the [Exception] subclasses the program can
      meet; process interruption ([KeyboardInterrupt], [SystemExit]) is
      not modelled.
    - The network is an oracle: the answer to each [requests.get].
    - [print] and [time.sleep] have no effect on any value and are left
      out, but for the one [print] whose argument can raise (the cursor
      of the pagination loop, shown as a date); the calls a loop makes
      are kept in a log where a property speaks about them.
    - pandas behaviour that depends on the installed version, or that the
      program never relies on, is a field of [PandasOracle]. *)

From Stdlib Require Import ZArith QArith Lia Ascii String.
From stdpp Require Import gmap strings list sorting.

#[local] Set Warnings "-register-all".
#[local] Open Scope string_scope.
#[local] Open Scope Z_scope.

(* ===================================================================== *)
(** * Python values and exceptions *)
(* ===================================================================== *)

(** The value of a parsed JSON document.  An object is a Python [dict]
    with string keys. *)
Inductive json :=
| JNull
| JBool (b : bool)
| JInt (z : Z)
| JStr (s : string)
| JArr (l : list json)
| JObj (m : gmap string json).

(** The exception classes that occur.  The first four are subclasses of
    [requests.exceptions.RequestException]. *)
Inductive exn :=
| ConnectionError
| Timeout
| HTTPError
| JSONDecodeError
| KeyError
| TypeError
| ValueError
| AttributeError
| OutOfBoundsDatetime
| EOFError.

Definition is_RequestException (e : exn) : bool :=
  match e with
  | ConnectionError | Timeout | HTTPError | JSONDecodeError => true
  | _ => false
  end.

Inductive outcome (A : Type) :=
| Returned (a : A)
| Raised (e : exn).
Arguments Returned {A} a.
Arguments Raised {A} e.

#[global] Instance outcome_ret : MRet outcome := fun A a => Returned a.
#[global] Instance outcome_bind : MBind outcome := fun A B f c =>
  match c with
  | Returned a => f a
  | Raised e => Raised e
  end.

(** [try: body  except ...: handler].  A handler answers [None] for an
    exception its clauses do not name. *)
Definition try_except {A} (body : outcome A)
    (handler : exn -> option (outcome A)) : outcome A :=
  match body with
  | Returned a => Returned a
  | Raised e =>
      match handler e with
      | Some r => r
      | None => Raised e
      end
  end.

(** [needle in hay] on two [str]. *)
Fixpoint str_contains (needle hay : string) : bool :=
  String.prefix needle hay ||
  match hay with
  | EmptyString => false
  | String _ hay' => str_contains needle hay'
  end.

Definition is_JStr (k : string) (j : json) : bool :=
  match j with
  | JStr s => bool_decide (s = k)
  | _ => false
  end.

(** [k in v] for a [str] key [k]: key membership on a dict, element
    membership on a list, substring on a str; [TypeError] on a value that
    is not iterable. *)
Definition py_contains (k : string) (v : json) : outcome bool :=
  match v with
  | JObj m => Returned (bool_decide (is_Some (m !! k)))
  | JArr l => Returned (existsb (is_JStr k) l)
  | JStr s => Returned (str_contains k s)
  | JNull | JBool _ | JInt _ => Raised TypeError
  end.

(** [v[k]] for a [str] key [k]. *)
Definition py_getitem (v : json) (k : string) : outcome json :=
  match v with
  | JObj m =>
      match m !! k with
      | Some x => Returned x
      | None => Raised KeyError
      end
  | _ => Raised TypeError
  end.

(** [isinstance(v, list)], with the list it holds. *)
Definition as_list (v : json) : option (list json) :=
  match v with
  | JArr l => Some l
  | _ => None
  end.

(** A value that behaves as an [int] under [>=] and [+]: an int, or a
    bool ([bool] is a subclass of [int]). *)
Definition as_int (v : json) : option Z :=
  match v with
  | JInt z => Some z
  | JBool b => Some (Z.b2z b)
  | _ => None
  end.

(** [v >= n] for an int [n]. *)
Definition py_ge (v : json) (n : Z) : outcome bool :=
  match as_int v with
  | Some z => Returned (n <=? z)
  | None => Raised TypeError
  end.

(** [v + 1]; used only after [v >= n] succeeded. *)
Definition py_add1 (v : json) : outcome Z :=
  match as_int v with
  | Some z => Returned (z + 1)
  | None => Raised TypeError
  end.

(* ===================================================================== *)
(** * The HTTP layer *)
(* ===================================================================== *)

(** What [requests.get] hands back: the status line and what [.json()]
    makes of the body ([None]: the body is not JSON). *)
Record Response := mkResponse {
  status_code : Z;
  body : option json
}.

Record request := mkRequest {
  url : string;
  params : list (string * json)
}.

(** [response.raise_for_status()]: [HTTPError] on 4xx and 5xx. *)
Definition raise_for_status (r : Response) : outcome unit :=
  if (400 <=? status_code r) && (status_code r <? 600)
  then Raised HTTPError
  else Returned tt.

(** [response.json()]. *)
Definition response_json (r : Response) : outcome json :=
  match body r with
  | Some j => Returned j
  | None => Raised JSONDecodeError
  end.

Definition BASE_URL : string := "https://api.india.delta.exchange".

(** The [result] list of an envelope, [None] when the shape test
    ['result' in json_response and isinstance(json_response['result'], list)]
    fails.  The test itself raises on a value that is not a container. *)
Definition result_list (json_response : json) : outcome (option (list json)) :=
  has ← py_contains "result" json_response;
  if has : bool then
    r ← py_getitem json_response "result";
    mret (as_list r)
  else mret None.

Module Fetchers.

(** Both handlers of the fetchers do the same: print and [return []]. *)
Definition on_error (e : exn) : option (outcome (list json)) :=
  if is_RequestException e then Some (Returned [])
  else Some (Returned []).

Definition get_all_products (get : request -> outcome Response)
    (base_url : string) : outcome (list json) :=
  let endpoint := base_url +:+ "/v2/products" in
  try_except
    (response ← get (mkRequest endpoint []);
     _ ← raise_for_status response;
     json_response ← response_json response;
     shape ← result_list json_response;
     match shape with
     | Some products => mret products
     | None => mret []
     end)
    on_error.

Definition get_all_tickers (get : request -> outcome Response)
    (base_url : string) : outcome (list json) :=
  let endpoint := base_url +:+ "/v2/tickers" in
  try_except
    (response ← get (mkRequest endpoint []);
     _ ← raise_for_status response;
     json_response ← response_json response;
     shape ← result_list json_response;
     match shape with
     | Some tickers => mret tickers
     | None => mret []
     end)
    on_error.

End Fetchers.

(* ===================================================================== *)
(** * Dates and times *)
(* ===================================================================== *)

(** A UTC-aware [datetime.datetime], by its fields. *)
Record datetime := mkdatetime {
  year : Z;
  month : Z;
  day : Z;
  hour : Z;
  minute : Z;
  second : Z;
  microsecond : Z
}.

Module Datetime.

(** The proleptic Gregorian ordinal, as [datetime.py] computes it. *)
Definition is_leap (y : Z) : bool :=
  (y mod 4 =? 0) && (negb (y mod 100 =? 0) || (y mod 400 =? 0)).

Definition days_before_year (y : Z) : Z :=
  let y' := y - 1 in
  y' * 365 + y' / 4 - y' / 100 + y' / 400.

Definition DAYS_BEFORE_MONTH : list Z :=
  [-1; 0; 31; 59; 90; 120; 151; 181; 212; 243; 273; 304; 334].

Definition days_before_month (y m : Z) : Z :=
  nth (Z.to_nat m) DAYS_BEFORE_MONTH 0 +
  (if (2 <? m) && is_leap y then 1 else 0).

Definition ymd2ord (y m d : Z) : Z :=
  days_before_year y + days_before_month y m + d.

(** [datetime(1970, 1, 1).toordinal()]. *)
Definition EPOCH_ORDINAL : Z := 719163.

(** Microseconds between the epoch and [dt]: the instant [dt] names. *)
Definition us_since_epoch (dt : datetime) : Z :=
  (((ymd2ord (year dt) (month dt) (day dt) - EPOCH_ORDINAL) * 86400
    + hour dt * 3600 + minute dt * 60 + second dt) * 1000000)
  + microsecond dt.

(** [int(dt.timestamp())]: the seconds, truncated toward zero.  Exact
    for a datetime without a sub-second part, which is all the program
    builds; the float rounding Python applies to a sub-second part is
    not modelled. *)
Definition int_timestamp (dt : datetime) : Z :=
  Z.quot (us_since_epoch dt) 1000000.

(** The timestamps of 0001-01-01 00:00:00 and 9999-12-31 23:59:59 UTC. *)
Definition MIN_TIMESTAMP : Z := -62135596800.
Definition MAX_TIMESTAMP : Z := 253402300799.

(** [datetime.fromtimestamp(t, tz=timezone.utc)] for an int [t]: it
    raises when [t] falls outside the years 1 to 9999.  The datetime it
    builds is only printed and is not kept.  (The class of the exception
    depends on the platform; the program treats all alike.) *)
Definition fromtimestamp (t : Z) : outcome unit :=
  if (MIN_TIMESTAMP <=? t) && (t <=? MAX_TIMESTAMP)
  then Returned tt
  else Raised ValueError.

(** [a > b] on two aware datetimes compares the instants. *)
Definition gt (a b : datetime) : bool :=
  us_since_epoch b <? us_since_epoch a.

(** [dt.replace(hour=23, minute=59, second=59, microsecond=0)]. *)
Definition end_of_day (dt : datetime) : datetime :=
  mkdatetime (year dt) (month dt) (day dt) 23 59 59 0.

End Datetime.

(* ===================================================================== *)
(** * Text typed at a prompt *)
(* ===================================================================== *)

(** Strings are ASCII text: [strip], [upper] and [int] are modelled on
    the ASCII range and leave other bytes alone. *)
Module Text.

(** The ASCII characters [str.isspace] accepts. *)
Definition is_space (c : ascii) : bool :=
  let n := nat_of_ascii c in
  ((9 <=? n) && (n <=? 13) || (28 <=? n) && (n <=? 32))%nat.

Fixpoint lstrip (cs : list ascii) : list ascii :=
  match cs with
  | c :: cs' => if is_space c then lstrip cs' else cs
  | [] => []
  end.

(** [s.strip()]. *)
Definition strip (s : string) : string :=
  string_of_list_ascii
    (rev (lstrip (rev (lstrip (list_ascii_of_string s))))).

Definition upper_char (c : ascii) : ascii :=
  let n := nat_of_ascii c in
  if ((97 <=? n) && (n <=? 122))%nat then ascii_of_nat (n - 32) else c.

(** [s.upper()]. *)
Definition upper (s : string) : string :=
  string_of_list_ascii (upper_char <$> list_ascii_of_string s).

Definition digit_value (c : ascii) : option Z :=
  let n := nat_of_ascii c in
  if ((48 <=? n) && (n <=? 57))%nat then Some (Z.of_nat (n - 48)) else None.

(** Decimal digits, a single underscore allowed between two digits. *)
Fixpoint digits (acc : Z) (after_digit : bool) (cs : list ascii) : option Z :=
  match cs with
  | [] => if after_digit then Some acc else None
  | c :: cs' =>
      match digit_value c with
      | Some d => digits (acc * 10 + d) true cs'
      | None =>
          if after_digit && bool_decide (c = "_"%char)
          then digits acc false cs'
          else None
      end
  end.

(** [int(s)] for a [str]: [None] stands for [ValueError].  The cap on
    the number of digits newer interpreters apply is not modelled. *)
Definition int (s : string) : option Z :=
  match list_ascii_of_string (strip s) with
  | c :: cs =>
      if bool_decide (c = "-"%char) then Z.opp <$> digits 0 false cs
      else if bool_decide (c = "+"%char) then digits 0 false cs
      else digits 0 false (c :: cs)
  | [] => None
  end.

End Text.

(* ===================================================================== *)
(** * Interactive input *)
(* ===================================================================== *)

(** What the two clock reads of the date prompt return:
    [datetime.now().year] and [datetime.now(timezone.utc)]. *)
Record clock := mkclock {
  local_year : Z;
  utc_now : datetime
}.

Module Input.

(** The lines the user types are a list; [input()] takes the head and
    raises [EOFError] when nothing is left. *)
Fixpoint get_user_input_symbol (available_symbols : gset string)
    (inputs : list string) : outcome string :=
  match inputs with
  | [] => Raised EOFError
  | line :: rest =>
      let user_symbol := Text.upper (Text.strip line) in
      if decide (user_symbol ∈ available_symbols)
      then Returned user_symbol
      else get_user_input_symbol available_symbols rest
  end.

(** One pass of the body of [get_user_input_date_range] once both years
    are read: [None] is a [continue]. *)
Definition date_range_of_years (clk : clock) (start_year end_year : Z)
    : option (datetime * datetime) :=
  if negb ((1900 <=? start_year) && (start_year <=? local_year clk)
           && (1900 <=? end_year) && (end_year <=? local_year clk))
  then None
  else if end_year <? start_year then None
  else
    let start_date_obj :=
      if start_year <? 2020
      then mkdatetime start_year 1 1 0 0 0 0   (* after the warning *)
      else mkdatetime start_year 1 1 0 0 0 0 in
    let end_date_obj := mkdatetime end_year 12 31 23 59 59 0 in
    let current_utc_time := utc_now clk in
    let end_date_obj :=
      if Datetime.gt end_date_obj current_utc_time
      then Datetime.end_of_day current_utc_time
      else end_date_obj in
    Some (start_date_obj, end_date_obj).

(** The prompt loop.  A line that is not an integer raises [ValueError]
    at that [int(input())], so a bad START year starts the pass again
    without reading an END year.  [None]: the lines ran out; [input()]
    then raises [EOFError] inside the [try] on every pass and the loop
    never returns. *)
Fixpoint get_user_input_date_range (clk : clock) (inputs : list string)
    : option (datetime * datetime) :=
  match inputs with
  | [] => None
  | line1 :: rest =>
      match Text.int line1 with
      | None => get_user_input_date_range clk rest
      | Some start_year =>
          match rest with
          | [] => None
          | line2 :: rest' =>
              match Text.int line2 with
              | None => get_user_input_date_range clk rest'
              | Some end_year =>
                  match date_range_of_years clk start_year end_year with
                  | Some range => Some range
                  | None => get_user_input_date_range clk rest'
                  end
              end
          end
      end
  end.

End Input.

(* ===================================================================== *)
(** * The pandas calls the program makes *)
(* ===================================================================== *)

(** A cell of a frame: a Python object as parsed, a missing value, a
    [Timestamp] (nanoseconds since the epoch, UTC), [NaT], or a number
    produced by [to_numeric] (the rational the float denotes). *)
Inductive cell :=
| Obj (j : json)
| NaN
| Timestamp (ns : Z)
| NaT
| Float (q : Q).

(** A frame: its column labels and its rows in index order; a row maps
    every label to its cell. *)
Record DataFrame := mkDataFrame {
  columns : list string;
  rows : list (gmap string cell)
}.

(** What the model leaves to pandas: behaviour that depends on its
    version or that the program does not rely on. *)
Class PandasOracle := {
  (** [pd.DataFrame(data)] when some element of [data] is not a dict:
      [Some e] when the constructor raises [e], [None] when it builds a
      frame, which then has positional (integer) labels only. *)
  irregular_frame : list json -> option exn;
  (** [pd.to_datetime(.., unit='s', utc=True)] on a cell that is neither
      missing nor an int of seconds that fits 64 bits of nanoseconds:
      the nanoseconds, [None] for [NaT], or the exception the call
      raises. *)
  to_datetime_other : cell -> outcome (option Z);
  (** [pd.to_numeric(.., errors='coerce')] on a cell that is neither an
      int nor missing: the number, or [None] for [NaN]. *)
  to_numeric_other : cell -> option Q
}.

#[global] Instance Qle_decision (x y : Q) : Decision (x <= y)%Q :=
  decide (Qnum x * QDen y <= Qnum y * QDen x).

Module Pandas.

(** [pd.DataFrame()]. *)
Definition empty : DataFrame := mkDataFrame [] [].

Definition as_dict (j : json) : option (gmap string json) :=
  match j with
  | JObj m => Some m
  | _ => None
  end.

(** A row of the frame built from a dict: the dict's values, [NaN]
    under the labels it lacks. *)
Definition row_of_dict (labels : gset string) (m : gmap string json)
    : gmap string cell :=
  (Obj <$> m) ∪ gset_to_gmap NaN labels.

(** [pd.DataFrame(data)] for a non-empty list: the frame, or [None] for
    a frame without string labels.  The labels are the keys of the
    dicts; Python lists them in first-seen order, which a [gmap] does
    not record and on which nothing below depends. *)
Definition DataFrame_of `{PandasOracle} (data : list json)
    : outcome (option DataFrame) :=
  match mapM as_dict data with
  | Some dicts =>
      let labels : gset string := ⋃ (dom <$> dicts) in
      Returned (Some (mkDataFrame (elements labels)
                                  (row_of_dict labels <$> dicts)))
  | None =>
      match irregular_frame data with
      | Some e => Raised e
      | None => Returned None
      end
  end.

Definition at_label (c : string) (r : gmap string cell) : cell :=
  default NaN (r !! c).

(** [df[c]]: the cells of a column, [KeyError] without the label. *)
Definition getcol (df : DataFrame) (c : string) : outcome (list cell) :=
  if decide (c ∈ columns df)
  then Returned (at_label c <$> rows df)
  else Raised KeyError.

(** [df[c] = cells]. *)
Definition setcol (df : DataFrame) (c : string) (cells : list cell)
    : DataFrame :=
  mkDataFrame
    (if decide (c ∈ columns df) then columns df else columns df ++ [c])
    (zip_with (fun r v => <[c := v]> r) (rows df) cells).

(** [df[cols]] for a list of labels: [KeyError] when one is missing. *)
Definition select (df : DataFrame) (cols : list string) : outcome DataFrame :=
  if forallb (fun c => bool_decide (c ∈ columns df)) cols
  then Returned
         (mkDataFrame cols
            ((fun r : gmap string cell =>
                filter (fun kv => kv.1 ∈ cols) r) <$> rows df))
  else Raised KeyError.

(** The seconds pandas can hold as nanoseconds in 64 bits. *)
Definition MAX_SECONDS : Z := 9223372036.

(** One cell under [pd.to_datetime(.., unit='s', utc=True)]. *)
Definition to_datetime_cell `{PandasOracle} (c : cell) : outcome cell :=
  match c with
  | Obj (JInt z) =>
      if (- MAX_SECONDS <=? z) && (z <=? MAX_SECONDS)
      then Returned (Timestamp (z * 1000000000))
      else
        t ← to_datetime_other c;
        mret (from_option Timestamp NaT t)
  | Obj JNull | NaN | NaT => Returned NaT
  | Timestamp ns => Returned (Timestamp ns)
  | _ =>
      t ← to_datetime_other c;
      mret (from_option Timestamp NaT t)
  end.

Definition to_datetime `{PandasOracle} (cells : list cell)
    : outcome (list cell) :=
  mapM to_datetime_cell cells.

(** The instant of a cell of a converted column; [None] is [NaT]. *)
Definition instant (c : cell) : option Z :=
  match c with
  | Timestamp ns => Some ns
  | _ => None
  end.

Definition time_of (c : string) (r : gmap string cell) : option Z :=
  instant (at_label c r).

(** Keep the first row of each key, in order; [seen] holds the keys
    already kept. *)
Fixpoint keep_first {A K} `{EqDecision K} (key : A -> K) (seen : list K)
    (l : list A) : list A :=
  match l with
  | [] => []
  | x :: l' =>
      if decide (key x ∈ seen) then keep_first key seen l'
      else x :: keep_first key (key x :: seen) l'
  end.

(** [df.drop_duplicates(subset=[c])] on a converted column: the first
    row of each instant stays, and all [NaT] count as one value. *)
Definition drop_duplicates (c : string) (df : DataFrame) : DataFrame :=
  mkDataFrame (columns df) (keep_first (time_of c) [] (rows df)).

(** Ascending order on instants, [NaT] last. *)
Definition instant_le (a b : option Z) : Prop :=
  match a, b with
  | _, None => True
  | Some x, Some y => x <= y
  | None, Some _ => False
  end.

#[global] Instance instant_le_dec a b : Decision (instant_le a b).
Proof. destruct a, b; simpl; apply _. Defined.

Definition row_le (c : string) (r1 r2 : gmap string cell) : Prop :=
  instant_le (time_of c r1) (time_of c r2).

(** [df.sort_values(by=c)] on a converted column.  pandas sorts with an
    unstable quicksort; rows with equal keys may come out in any order,
    the model keeps theirs. *)
Definition sort_values (c : string) (df : DataFrame) : DataFrame :=
  mkDataFrame (columns df) (merge_sort (row_le c) (rows df)).

(** [df[(df[c] >= lo) & (df[c] <= hi)]]; a comparison with [NaT] is
    false. *)
Definition between (c : string) (lo hi : Z) (df : DataFrame) : DataFrame :=
  mkDataFrame (columns df)
    (List.filter
       (fun r => match time_of c r with
                 | Some t => (lo <=? t) && (t <=? hi)
                 | None => false
                 end)
       (rows df)).

(** One cell under [pd.to_numeric(.., errors='coerce')]. *)
Definition to_numeric_cell `{PandasOracle} (c : cell) : cell :=
  match c with
  | Obj (JInt z) => Float (inject_Z z)
  | Float q => Float q
  | Obj JNull | NaN | NaT => NaN
  | _ => from_option Float NaN (to_numeric_other c)
  end.

Definition is_na (c : cell) : bool :=
  match c with
  | NaN | NaT | Obj JNull => true
  | _ => false
  end.

(** [df.dropna(subset=[c])]. *)
Definition dropna (c : string) (df : DataFrame) : DataFrame :=
  mkDataFrame (columns df)
    (List.filter (fun r => negb (is_na (at_label c r))) (rows df)).

(** The number in a cell of a numeric column. *)
Definition number (c : cell) : Q :=
  match c with
  | Float q => q
  | _ => 0
  end.

Definition row_ge (c : string) (r1 r2 : gmap string cell) : Prop :=
  (number (at_label c r2) <= number (at_label c r1))%Q.

#[global] Instance row_ge_dec c r1 r2 : Decision (row_ge c r1 r2).
Proof. unfold row_ge. apply _. Defined.

(** [df.sort_values(by=c, ascending=False)] on a numeric column without
    missing values; equal keys as in [sort_values]. *)
Definition sort_values_desc (c : string) (df : DataFrame) : DataFrame :=
  mkDataFrame (columns df) (merge_sort (row_ge c) (rows df)).

(** [df.head(n)]: the first [n] rows, or for a negative [n] all rows
    but the last [-n]. *)
Definition head (n : Z) (df : DataFrame) : DataFrame :=
  mkDataFrame (columns df)
    (if 0 <=? n then take (Z.to_nat n) (rows df)
     else take (length (rows df) - Z.to_nat (- n)) (rows df)).

End Pandas.

(* ===================================================================== *)
(** * Top-N ranking *)
(* ===================================================================== *)

Module Ranking.

Definition VOLUME_COLUMN : string := "turnover_usd".

Definition desired_cols : list string :=
  ["symbol"; VOLUME_COLUMN; "volume"; "last_price"; "close"; "open";
   "high"; "low"].

Definition get_top_n_symbols_by_volume `{PandasOracle}
    (get : request -> outcome Response) (n : Z) : outcome DataFrame :=
  tickers ← Fetchers.get_all_tickers get BASE_URL;
  match tickers with
  | [] => Returned Pandas.empty
  | _ :: _ =>
      built ← Pandas.DataFrame_of tickers;
      match built with
      | None => Returned Pandas.empty   (* no string label at all *)
      | Some df =>
          if decide (VOLUME_COLUMN ∈ columns df) then
            volume ← Pandas.getcol df VOLUME_COLUMN;
            let df :=
              Pandas.setcol df VOLUME_COLUMN
                (Pandas.to_numeric_cell <$> volume) in
            let df := Pandas.dropna VOLUME_COLUMN df in
            let df_sorted := Pandas.sort_values_desc VOLUME_COLUMN df in
            let top_n_symbols := Pandas.head n df_sorted in
            let existing_cols :=
              List.filter
                (fun col => bool_decide (col ∈ columns top_n_symbols))
                desired_cols in
            Pandas.select top_n_symbols existing_cols
          else Returned Pandas.empty
      end
  end.

End Ranking.

(* ===================================================================== *)
(** * Candle pagination and tabular assembly *)
(* ===================================================================== *)

Module Candles.

(** The variables of the loop, and the log of the calls made. *)
Record loop_state := mkstate {
  current_chunk_start_timestamp : Z;
  all_candles : list json;
  calls : list request
}.

(** A statement of the loop body runs on the state and may raise. *)
Definition M (A : Type) : Type := loop_state -> loop_state * outcome A.

Definition ret {A} (a : A) : M A := fun st => (st, Returned a).

Definition bind {A B} (c : M A) (f : A -> M B) : M B :=
  fun st =>
    match c st with
    | (st', Returned a) => f a st'
    | (st', Raised e) => (st', Raised e)
    end.

Definition lift {A} (o : outcome A) : M A := fun st => (st, o).

#[global] Instance M_ret : MRet M := @ret.
#[global] Instance M_bind : MBind M := fun A B f c => bind c f.

(** [all_candles.extend(page)]. *)
Definition extend (page : list json) : M unit :=
  fun st =>
    (mkstate (current_chunk_start_timestamp st) (all_candles st ++ page)
             (calls st),
     Returned tt).

(** [current_chunk_start_timestamp = t]. *)
Definition set_cursor (t : Z) : M unit :=
  fun st => (mkstate t (all_candles st) (calls st), Returned tt).

Inductive control := Continue | Break.

Section Loop.

(** The exchange: the answer to the [i]-th call of the run. *)
Variable api : nat -> request -> outcome Response.
Variables symbol resolution : string.
Variables overall_end_timestamp limit_per_request : Z.

Definition candles_request (cursor : Z) : request :=
  mkRequest (BASE_URL +:+ "/v2/history/candles")
    [("symbol", JStr symbol);
     ("resolution", JStr resolution);
     ("start", JInt cursor);
     ("end", JInt overall_end_timestamp);
     ("limit", JInt limit_per_request)].

(** [requests.get(...)], logged. *)
Definition requests_get (req : request) : M Response :=
  fun st =>
    (mkstate (current_chunk_start_timestamp st) (all_candles st)
             (calls st ++ [req]),
     api (length (calls st)) req).

(** The statements inside [try:].  The first is the [print] of the
    cursor as a date, which builds that date. *)
Definition try_body : M control :=
  fun st =>
    (_ ← lift (Datetime.fromtimestamp (current_chunk_start_timestamp st));
     response ← requests_get
                   (candles_request (current_chunk_start_timestamp st));
     _ ← lift (raise_for_status response);
     json_response ← lift (response_json response);
     shape ← lift (result_list json_response);
     match shape with
     | None => mret Break
     | Some candles_page =>
         match candles_page with
         | [] => mret Break
         | _ :: _ =>
             _ ← extend candles_page;
             last_candle_time ←
               lift (py_getitem (List.last candles_page JNull) "time");
             reached ← lift (py_ge last_candle_time overall_end_timestamp);
             if reached : bool then mret Break
             else
               next ← lift (py_add1 last_candle_time);
               _ ← set_cursor next;
               if Z.of_nat (length candles_page) <? limit_per_request
               then mret Break
               else mret Continue
         end
     end) st.

(** One pass: both [except] clauses [break], and the state keeps what
    the statements before the exception did to it. *)
Definition iteration (st : loop_state) : loop_state * control :=
  match try_body st with
  | (st', Returned c) => (st', c)
  | (st', Raised e) =>
      (st', if is_RequestException e then Break else Break)
  end.

(** The [while] loop; [None] when [fuel] passes do not end it. *)
Fixpoint pagination_loop (fuel : nat) (st : loop_state)
    : option loop_state :=
  if current_chunk_start_timestamp st <=? overall_end_timestamp then
    match fuel with
    | O => None
    | S fuel' =>
        match iteration st with
        | (st', Continue) => pagination_loop fuel' st'
        | (st', Break) => Some st'
        end
    end
  else Some st.

End Loop.

Definition OHLC_COLUMNS : list string :=
  ["time"; "open"; "high"; "low"; "close"; "volume"].

(** The statements under [if all_candles:]. *)
Definition assemble `{PandasOracle} (candles : list json)
    (start_time_dt end_time_dt : datetime) : outcome DataFrame :=
  built ← Pandas.DataFrame_of candles;
  match built with
  | None => Raised KeyError   (* [df['time']] without the label *)
  | Some df =>
      time ← Pandas.getcol df "time";
      converted ← Pandas.to_datetime time;
      let df := Pandas.setcol df "time" converted in
      let df := Pandas.drop_duplicates "time" df in
      let df := Pandas.sort_values "time" df in
      let df :=
        Pandas.between "time"
          (Datetime.us_since_epoch start_time_dt * 1000)
          (Datetime.us_since_epoch end_time_dt * 1000) df in
      Pandas.select df OHLC_COLUMNS
  end.

(** The state the loop ends in, [None] when [fuel] passes do not end
    it. *)
Definition fetch_pages (fuel : nat) (api : nat -> request -> outcome Response)
    (symbol resolution : string) (start_time_dt end_time_dt : datetime)
    (limit_per_request : Z) : option loop_state :=
  let overall_start_timestamp := Datetime.int_timestamp start_time_dt in
  let overall_end_timestamp := Datetime.int_timestamp end_time_dt in
  pagination_loop api symbol resolution overall_end_timestamp
    limit_per_request fuel (mkstate overall_start_timestamp [] []).

(** The statements after the loop: [pd.DataFrame()] when nothing was
    gathered, the assembled table otherwise. *)
Definition table_of `{PandasOracle} (candles : list json)
    (start_time_dt end_time_dt : datetime) : outcome DataFrame :=
  match candles with
  | [] => Returned Pandas.empty
  | _ :: _ => assemble candles start_time_dt end_time_dt
  end.

Definition get_ohlc_data_paginated `{PandasOracle} (fuel : nat)
    (api : nat -> request -> outcome Response)
    (symbol resolution : string) (start_time_dt end_time_dt : datetime)
    (limit_per_request : Z) : option (outcome DataFrame) :=
  st ← fetch_pages fuel api symbol resolution start_time_dt end_time_dt
         limit_per_request;
  Some (table_of (all_candles st) start_time_dt end_time_dt).

End Candles.

(* ===================================================================== *)
(** * A concrete pandas and a concrete exchange *)
(* ===================================================================== *)

Module Example.

(** A pandas that refuses whatever the model leaves open. *)
Definition strict_pandas : PandasOracle := {|
  irregular_frame := fun _ => Some AttributeError;
  to_datetime_other := fun _ => Raised TypeError;
  to_numeric_other := fun _ => None
|}.

Definition candle (t : Z) : json :=
  JObj (list_to_map
          [("time", JInt t); ("open", JInt 100); ("high", JInt 110);
           ("low", JInt 90); ("close", JInt 105); ("volume", JInt 7)]).

Definition candle_time (c : json) : option Z :=
  match py_getitem c "time" with
  | Returned v => as_int v
  | Raised _ => None
  end.

Definition param (req : request) (k : string) : option Z :=
  match List.find (fun kv => bool_decide (kv.1 = k)) (params req) with
  | Some kv => as_int kv.2
  | None => None
  end.

(** An exchange that holds [candles] and answers a call with the first
    [cap] of them that lie in the window asked for. *)
Definition exchange (cap : nat) (candles : list json)
    : nat -> request -> outcome Response :=
  fun _ req =>
    match param req "start", param req "end" with
    | Some lo, Some hi =>
        let page :=
          take cap
            (List.filter
               (fun c => match candle_time c with
                         | Some t => (lo <=? t) && (t <=? hi)
                         | None => false
                         end)
               candles) in
        Returned (mkResponse 200 (Some (JObj {["result" := JArr page]})))
    | _, _ => Returned (mkResponse 400 None)
    end.

(** 2024-01-01 00:00:00 UTC and the ten days from it. *)
Definition DAY0 : Z := 1704067200.

Definition ten_days : list Z := (fun i => DAY0 + 86400 * i) <$> seqZ 0 10.

Definition daily_candles : list json := candle <$> ten_days.

Definition window_start : datetime := mkdatetime 2024 1 1 0 0 0 0.
Definition window_end : datetime := mkdatetime 2024 1 10 23 59 59 0.

(** The row a candle of the exchange becomes in the table. *)
Definition table_row (t : Z) : gmap string cell :=
  list_to_map
    [("time", Timestamp (t * 1000000000)); ("open", Obj (JInt 100));
     ("high", Obj (JInt 110)); ("low", Obj (JInt 90));
     ("close", Obj (JInt 105)); ("volume", Obj (JInt 7))].

Definition ten_day_table : DataFrame :=
  mkDataFrame Candles.OHLC_COLUMNS (table_row <$> ten_days).



(** Three tickers, one of them without a numeric turnover. *)
Definition three_tickers : list json :=
  [JObj (list_to_map
           [("symbol", JStr "ETHUSD"); ("turnover_usd", JInt 5);
            ("last_price", JInt 3000)]);
   JObj (list_to_map
           [("symbol", JStr "XRPUSD"); ("turnover_usd", JNull)]);
   JObj (list_to_map
           [("symbol", JStr "BTCUSD"); ("turnover_usd", JInt 9);
            ("last_price", JInt 60000)])].

Definition ticker_feed : request -> outcome Response :=
  fun _ =>
    Returned (mkResponse 200 (Some (JObj {["result" := JArr three_tickers]}))).

End Example.

(* ===================================================================== *)
(** * Specification-side definitions *)
(* ===================================================================== *)

Module Spec.

(** The list a fetcher is to return for an answer of the network, in
    the words of the fetcher contract with its status test read as the
    code has it: the [result] list of a JSON object whose status is not
    4xx or 5xx, and the empty list for everything else. *)
Definition envelope_list (answer : outcome Response) : list json :=
  match answer with
  | Returned r =>
      if (400 <=? status_code r) && (status_code r <? 600) then []
      else
        match body r with
        | Some (JObj m) =>
            match m !! "result" with
            | Some (JArr l) => l
            | _ => []
            end
        | _ => []
        end
  | Raised _ => []
  end.

(** The page a pass of the pagination loop reads out of an answer:
    [None] when the request failed or the envelope is malformed. *)
Definition page_of (answer : outcome Response) : option (list json) :=
  match (response ← answer;
         _ ← raise_for_status response;
         json_response ← response_json response;
         result_list json_response) with
  | Returned (Some page) => Some page
  | _ => None
  end.

(** The timestamp of the last candle of a page, when it reads as an
    int. *)
Definition last_time (page : list json) : option Z :=
  match py_getitem (List.last page JNull) "time" with
  | Returned v => as_int v
  | Raised _ => None
  end.

(** The sizes of the pages the logged calls of a run received. *)
Definition page_sizes (api : nat -> request -> outcome Response)
    (log : list request) : list nat :=
  imap (fun i req => length (default [] (page_of (api i req)))) log.

(** The page the pass that starts in [st] fetches: [None] when the pass
    makes no call (its cursor is no date), the call fails or the
    envelope is malformed. *)
Definition fetched (api : nat -> request -> outcome Response)
    (symbol resolution : string)
    (overall_end_timestamp limit_per_request : Z)
    (st : Candles.loop_state) : option (list json) :=
  match Datetime.fromtimestamp (Candles.current_chunk_start_timestamp st) with
  | Returned _ =>
      page_of
        (api (length (Candles.calls st))
           (Candles.candles_request symbol resolution overall_end_timestamp
              limit_per_request (Candles.current_chunk_start_timestamp st)))
  | Raised _ => None
  end.

(** What one pass of the pagination loop does to the state, told by the
    page it reads.  A cursor that is no date stops the loop before any
    call.  Otherwise the call is logged; a failed request, a malformed
    envelope and an empty page stop the loop; a page is appended and
    stops the loop when its last timestamp does not read as an int or
    has reached the end; otherwise the cursor moves just past that
    timestamp, and the loop goes on unless the page is short. *)
Definition pass (api : nat -> request -> outcome Response)
    (symbol resolution : string)
    (overall_end_timestamp limit_per_request : Z)
    (st : Candles.loop_state) : Candles.loop_state * Candles.control :=
  let cursor := Candles.current_chunk_start_timestamp st in
  let req :=
    Candles.candles_request symbol resolution overall_end_timestamp
      limit_per_request cursor in
  let log := (Candles.calls st ++ [req])%list in
  match Datetime.fromtimestamp cursor with
  | Raised _ => (st, Candles.Break)
  | Returned _ =>
      match page_of (api (length (Candles.calls st)) req) with
      | None | Some [] =>
          (Candles.mkstate cursor (Candles.all_candles st) log, Candles.Break)
      | Some page =>
          let candles := (Candles.all_candles st ++ page)%list in
          match last_time page with
          | None => (Candles.mkstate cursor candles log, Candles.Break)
          | Some t =>
              if overall_end_timestamp <=? t
              then (Candles.mkstate cursor candles log, Candles.Break)
              else (Candles.mkstate (t + 1) candles log,
                    if Z.of_nat (length page) <? limit_per_request
                    then Candles.Break else Candles.Continue)
          end
      end
  end.

(** The cell a ticker holds under a label once it is a row. *)
Definition ticker_cell (m : gmap string json) (c : string) : cell :=
  from_option Obj NaN (m !! c).

(** The rows of the ranking of a list of ticker objects, before the
    display columns are selected: turnover made numeric, rows without
    a number dropped, the rest sorted downward and cut by [head]. *)
Definition ranked_rows `{PandasOracle} (n : Z)
    (dicts : list (gmap string json)) : list (gmap string cell) :=
  let labels : gset string := ⋃ (dom <$> dicts) in
  rows
    (Pandas.head n
       (Pandas.sort_values_desc Ranking.VOLUME_COLUMN
          (Pandas.dropna Ranking.VOLUME_COLUMN
             (mkDataFrame (elements labels)
                ((fun r =>
                    <[Ranking.VOLUME_COLUMN :=
                        Pandas.to_numeric_cell
                          (Pandas.at_label Ranking.VOLUME_COLUMN r)]> r)
                   <$> (Pandas.row_of_dict labels <$> dicts)))))).

(** A ticker object with its turnover as a number, when
    [pd.to_numeric] gives it one. *)
Definition numeric_turnover `{PandasOracle} (m : gmap string json)
    : option (gmap string json * Q) :=
  match Pandas.to_numeric_cell (ticker_cell m Ranking.VOLUME_COLUMN) with
  | Float q => Some (m, q)
  | _ => None
  end.

(** The tickers with a numeric turnover, in the order fetched. *)
Definition numeric_tickers `{PandasOracle} (tickers : list json)
    : list (gmap string json * Q) :=
  omap (fun t => Pandas.as_dict t ≫= numeric_turnover) tickers.

End Spec.

(* ===================================================================== *)
(** * The main block *)
(* ===================================================================== *)

Module Program.

(** A value a Python [set] takes: lists and dicts are unhashable. *)
Definition hashable (v : json) : bool :=
  match v with
  | JArr _ | JObj _ => false
  | _ => true
  end.

(** One step of [{p['symbol'] for p in all_products}]. *)
Definition product_symbol (p : json) : outcome json :=
  s ← py_getitem p "symbol";
  if hashable s then Returned s else Raised TypeError.

(** The elements of the set comprehension, in the order they are
    computed; the first product that raises ends it. *)
Definition product_symbols (all_products : list json) : outcome (list json) :=
  mapM product_symbol all_products.

Definition as_str (v : json) : option string :=
  match v with
  | JStr s => Some s
  | _ => None
  end.

(** The strings of the set: the only elements a typed symbol, a [str],
    can be equal to. *)
Definition listed (symbols : list json) : gset string :=
  list_to_set (omap as_str symbols).

(** The lines left unread when [get_user_input_symbol] returns. *)
Fixpoint after_symbol (available_symbols : gset string)
    (inputs : list string) : list string :=
  match inputs with
  | [] => []
  | line :: rest =>
      if decide (Text.upper (Text.strip line) ∈ available_symbols)
      then rest
      else after_symbol available_symbols rest
  end.

Definition digit_char (d : Z) : ascii := ascii_of_nat (48 + Z.to_nat d).

(** The last [width] decimal digits of [n], zeros in front. *)
Fixpoint decimal (width : nat) (n : Z) : string :=
  match width with
  | O => ""
  | S w => decimal w (n / 10) +:+ String (digit_char (n mod 10)) ""
  end.

(** [dt.strftime('%Y%m%d')], for the years 1000 to 9999 (the main block
    formats years from 1900 on). *)
Definition strftime_Ymd (dt : datetime) : string :=
  decimal 4 (year dt) +:+ decimal 2 (month dt) +:+ decimal 2 (day dt).

Definition output_filename (target_symbol target_resolution : string)
    (start_date_obj end_date_obj : datetime) : string :=
  target_symbol +:+ "_" +:+ target_resolution +:+ "_"
  +:+ strftime_Ymd start_date_obj +:+ "_" +:+ strftime_Ymd end_date_obj
  +:+ "_ohlc.csv".

(** [df.empty]: an axis has length zero. *)
Definition is_empty (df : DataFrame) : bool :=
  match columns df, rows df with
  | [], _ | _, [] => true
  | _, _ => false
  end.

(** How a run of the main block ends. *)
Inductive run_result :=
| Exited                      (* [exit()]: no symbol to choose from *)
| Crashed (e : exn)           (* an exception left the block *)
| Stuck                       (* a prompt or the loop never returns *)
| NoData (symbol : string) (start_date_obj end_date_obj : datetime)
| Saved (filename : string) (df : DataFrame)
| NotSaved (filename : string) (df : DataFrame) (e : exn).

(** The block under [if __name__ == "__main__":].  [get] answers the
    products call, [api] the candle calls, [to_csv] is the file system:
    the exception writing a file raises, if any. *)
Definition main `{PandasOracle} (fuel : nat)
    (get : request -> outcome Response)
    (api : nat -> request -> outcome Response)
    (clk : clock) (to_csv : string -> DataFrame -> option exn)
    (inputs : list string) : run_result :=
  match Fetchers.get_all_products get BASE_URL with
  | Raised e => Crashed e
  | Returned all_products =>
      match product_symbols all_products with
      | Raised e => Crashed e
      | Returned [] => Exited
      | Returned symbols =>
          let available_symbols_set := listed symbols in
          match Input.get_user_input_symbol available_symbols_set inputs with
          | Raised e => Crashed e
          | Returned target_symbol =>
              let target_resolution := "1d" in
              match Input.get_user_input_date_range clk
                      (after_symbol available_symbols_set inputs) with
              | None => Stuck
              | Some (start_date_obj, end_date_obj) =>
                  match Candles.get_ohlc_data_paginated fuel api
                          target_symbol target_resolution
                          start_date_obj end_date_obj 2000 with
                  | None => Stuck
                  | Some (Raised e) => Crashed e
                  | Some (Returned ohlc_df) =>
                      if is_empty ohlc_df
                      then NoData target_symbol start_date_obj end_date_obj
                      else
                        let output_filename :=
                          output_filename target_symbol target_resolution
                            start_date_obj end_date_obj in
                        match to_csv output_filename ohlc_df with
                        | None => Saved output_filename ohlc_df
                        | Some e => NotSaved output_filename ohlc_df e
                        end
                  end
              end
          end
      end
  end.

End Program.



(* ===================================================================== *)
(** * The model on small inputs *)
(* ===================================================================== *)

Example timestamp_of_2024 :
  Datetime.int_timestamp (mkdatetime 2024 1 1 0 0 0 0) = 1704067200.
Proof. reflexivity. Qed.

Example timestamp_of_first_data_day :
  Datetime.int_timestamp (mkdatetime 2020 3 30 0 0 0 0) = 1585526400.
Proof. reflexivity. Qed.

Example timestamp_bounds :
  Datetime.int_timestamp (mkdatetime 1 1 1 0 0 0 0) = Datetime.MIN_TIMESTAMP
  /\ Datetime.int_timestamp (mkdatetime 9999 12 31 23 59 59 0)
     = Datetime.MAX_TIMESTAMP.
Proof. split; reflexivity. Qed.

Example leap_day :
  Datetime.int_timestamp (mkdatetime 2024 3 1 0 0 0 0)
  - Datetime.int_timestamp (mkdatetime 2024 2 28 0 0 0 0) = 2 * 86400.
Proof. reflexivity. Qed.

Example int_of_typed_year :
  Text.int " 2020 " = Some 2020
  /\ Text.int "2_020" = Some 2020
  /\ Text.int "-7" = Some (-7)
  /\ Text.int "20 20" = None
  /\ Text.int "2020." = None
  /\ Text.int "" = None.
Proof. repeat split; reflexivity. Qed.

Example symbol_normal_form :
  Text.upper (Text.strip "  btcusd ") = "BTCUSD".
Proof. reflexivity. Qed.

Example envelope_shapes :
  result_list (JObj {["result" := JArr [JInt 1]]}) = Returned (Some [JInt 1])
  /\ result_list (JObj {["error" := JStr "x"]}) = Returned None
  /\ result_list (JObj {["result" := JStr "x"]}) = Returned None
  /\ result_list (JArr [JStr "result"]) = Raised TypeError
  /\ result_list (JStr "no result") = Raised TypeError
  /\ result_list (JInt 5) = Raised TypeError.
Proof. repeat split; reflexivity. Qed.

Example head_of_negative_count :
  rows (Pandas.head (-1) (mkDataFrame [] [∅; ∅; ∅])) = [∅; ∅].
Proof. reflexivity. Qed.

(* ===================================================================== *)
(** * Properties of the fetchers *)
(* ===================================================================== *)

Section FetcherProperties.

Lemma result_list_object (m : gmap string json) :
  result_list (JObj m) =
  Returned (match m !! "result" with
            | Some (JArr l) => Some l
            | _ => None
            end).
Proof.
  unfold result_list, py_contains, py_getitem, mbind, outcome_bind.
  destruct (m !! "result") as [v|] eqn:E.
  - rewrite bool_decide_eq_true_2 by eauto.
    by destruct v.
  - rewrite bool_decide_eq_false_2; [done|].
    intros [? ?]; congruence.
Qed.

Lemma shape_cases (j : json) (k : option (list json) -> outcome (list json)) :
  (forall s, k s = Returned (default [] s)) ->
  try_except (shape ← result_list j; k shape) Fetchers.on_error =
  Returned (match j with
            | JObj m => match m !! "result" with
                        | Some (JArr l) => l
                        | _ => []
                        end
            | _ => []
            end).
Proof.
  intros Hk.
  destruct j as [| | | |l|m];
    try (unfold result_list; simpl; unfold Fetchers.on_error; reflexivity).
  - unfold result_list; simpl.
    destruct (str_contains "result" s); simpl; by rewrite ?Hk.
  - unfold result_list; simpl.
    destruct (existsb _ l); simpl; by rewrite ?Hk.
  - rewrite result_list_object. simpl. rewrite Hk.
    by destruct (m !! "result") as [[]|].
Qed.

Lemma fetch_body_spec (answer : outcome Response) :
  try_except
    (response ← answer;
     _ ← raise_for_status response;
     json_response ← response_json response;
     shape ← result_list json_response;
     match shape with
     | Some l => mret l
     | None => mret []
     end)
    Fetchers.on_error
  = Returned (Spec.envelope_list answer).
Proof.
  destruct answer as [[s b]|e]; simpl.
  - unfold raise_for_status; simpl.
    destruct ((400 <=? s) && (s <? 600)); simpl; [done|].
    unfold response_json; simpl. destruct b as [j|]; simpl; [|done].
    rewrite (shape_cases j (fun shape => match shape with
                                         | Some l => mret l
                                         | None => mret []
                                         end)).
    + by destruct j.
    + by intros [].
  - unfold Fetchers.on_error. by destruct (is_RequestException e).
Qed.

End FetcherProperties.

(** C4 (as the code has it).  [get_all_products] and [get_all_tickers]
    never raise: whatever the network answers, they return the list
    [Spec.envelope_list] names, that is the [result] list when the status
    is not 4xx or 5xx and the body is a JSON object whose [result] is a
    list, and the empty list on a failed request, a timeout, a 4xx or 5xx
    status, a body that is not JSON and a missing or malformed
    [result]. *)
Theorem fetchers_follow_envelope
    (get : request -> outcome Response) (base_url : string) :
  Fetchers.get_all_products get base_url =
    Returned (Spec.envelope_list
                (get (mkRequest (base_url +:+ "/v2/products") [])))
  /\ Fetchers.get_all_tickers get base_url =
    Returned (Spec.envelope_list
                (get (mkRequest (base_url +:+ "/v2/tickers") []))).
Proof.
  split; apply fetch_body_spec.
Qed.

(** C4 (as stated) fails on a status that is neither 2xx nor 4xx/5xx: an
    answer with status 300 and a well-formed envelope is returned, not
    turned into the empty list. *)
Lemma fetchers_keep_3xx_result :
  let answer :=
    Returned (mkResponse 300
                (Some (JObj {["result" := JArr [JStr "BTCUSD"]]}))) in
  ~ (200 <= 300 < 300)
  /\ Fetchers.get_all_products (fun _ => answer) BASE_URL
     = Returned [JStr "BTCUSD"]
  /\ Fetchers.get_all_tickers (fun _ => answer) BASE_URL
     = Returned [JStr "BTCUSD"].
Proof.
  split; [lia|]. split; reflexivity.
Qed.

(* ===================================================================== *)
(** * Properties of the prompts *)
(* ===================================================================== *)

Section PromptProperties.

Variable available_symbols : gset string.

Lemma symbol_rejected (line : string) (rest : list string) :
  Text.upper (Text.strip line) ∉ available_symbols ->
  Input.get_user_input_symbol available_symbols (line :: rest) =
  Input.get_user_input_symbol available_symbols rest.
Proof. intros Hno. simpl. by rewrite decide_False. Qed.

Lemma symbol_returned (inputs : list string) (s : string) :
  Input.get_user_input_symbol available_symbols inputs = Returned s ->
  s ∈ available_symbols /\
  exists before line after,
    inputs = (before ++ line :: after)%list
    /\ s = Text.upper (Text.strip line)
    /\ Forall (fun l => Text.upper (Text.strip l) ∉ available_symbols) before.
Proof.
  induction inputs as [|line rest IH]; simpl; [done|].
  destruct (decide (Text.upper (Text.strip line) ∈ available_symbols))
    as [Hin|Hout].
  - intros [= <-]. split; [done|].
    exists [], line, rest. by repeat split.
  - intros Hret. destruct (IH Hret) as (Hs & before & l & after & -> & -> & Hall).
    split; [done|].
    exists (line :: before), l, after. repeat split; by try constructor.
Qed.

End PromptProperties.

(** C8.  Whatever the user types, [get_user_input_symbol] returns only
    the stripped and uppercased form of a typed line that is in the set
    of available symbols, every line before it having been refused; and
    a line whose normal form is not in the set is refused by prompting
    again: the call goes on with the next line, it neither returns nor
    ends there. *)
Theorem symbol_prompt_accepts_members_only
    (available_symbols : gset string) (inputs : list string) :
  (forall s,
     Input.get_user_input_symbol available_symbols inputs = Returned s ->
     s ∈ available_symbols /\
     exists before line after,
       inputs = (before ++ line :: after)%list
       /\ s = Text.upper (Text.strip line)
       /\ Forall (fun l => Text.upper (Text.strip l) ∉ available_symbols)
            before)
  /\ (forall line,
        Text.upper (Text.strip line) ∉ available_symbols ->
        Input.get_user_input_symbol available_symbols (line :: inputs) =
        Input.get_user_input_symbol available_symbols inputs).
Proof.
  split.
  - intros s. apply symbol_returned.
  - intros line. apply symbol_rejected.
Qed.

Lemma symbol_prompt_witness :
  "BTCUSD" ∈ ({["BTCUSD"; "ETHUSD"]} : gset string)
  /\ Input.get_user_input_symbol {["BTCUSD"; "ETHUSD"]}
       ["dogeusd"; " btcusd "] =
     Input.get_user_input_symbol {["BTCUSD"; "ETHUSD"]} [" btcusd "].
Proof.
  split.
  - apply (proj1 (symbol_prompt_accepts_members_only
                    {["BTCUSD"; "ETHUSD"]} ["dogeusd"; " btcusd "])
                 "BTCUSD").
    vm_compute. reflexivity.
  - apply (proj2 (symbol_prompt_accepts_members_only
                    {["BTCUSD"; "ETHUSD"]} [" btcusd "]) "dogeusd").
    vm_compute. intros H. discriminate H.
Defined.

Section DateRangeProperties.

Variable clk : clock.

Lemma date_range_rejects (start_year end_year : Z) :
  ~ (1900 <= start_year <= local_year clk
     /\ 1900 <= end_year <= local_year clk)
  \/ end_year < start_year ->
  Input.date_range_of_years clk start_year end_year = None.
Proof.
  intros Hbad. unfold Input.date_range_of_years.
  destruct (negb _) eqn:Erange; [done|].
  destruct (end_year <? start_year) eqn:Eorder; [done|].
  apply negb_false_iff in Erange.
  repeat (apply andb_true_iff in Erange as [Erange ?]).
  lia.
Qed.

Lemma date_range_accepts (start_year end_year : Z) :
  1900 <= start_year <= local_year clk ->
  1900 <= end_year <= local_year clk ->
  start_year <= end_year ->
  Input.date_range_of_years clk start_year end_year =
  Some (mkdatetime start_year 1 1 0 0 0 0,
        if Datetime.gt (mkdatetime end_year 12 31 23 59 59 0) (utc_now clk)
        then Datetime.end_of_day (utc_now clk)
        else mkdatetime end_year 12 31 23 59 59 0).
Proof.
  intros Hs He Hle. unfold Input.date_range_of_years.
  replace (negb _) with false.
  2:{ symmetry. apply negb_false_iff.
      repeat (apply andb_true_iff; split); lia. }
  replace (end_year <? start_year) with false by lia.
  by destruct (start_year <? 2020).
Qed.

End DateRangeProperties.

(** C5 (as the code has it).  For two integer years,
    [get_user_input_date_range] refuses the pair and prompts again when a
    year lies outside 1900 .. current year or the start year is after the
    end year.  Otherwise it returns, with start = 1 January 00:00:00 UTC
    of the start year, also when that year is before 2020 (the warning
    changes nothing), and end = 31 December 23:59:59 UTC of the end year,
    unless that instant is after the current UTC time: then end is
    23:59:59 of the current UTC day. *)
Theorem date_range_prompt_contract
    (clk : clock) (line1 line2 : string) (rest : list string)
    (start_year end_year : Z) :
  Text.int line1 = Some start_year ->
  Text.int line2 = Some end_year ->
  let december := mkdatetime end_year 12 31 23 59 59 0 in
  (~ (1900 <= start_year <= local_year clk
      /\ 1900 <= end_year <= local_year clk)
   \/ end_year < start_year ->
   Input.get_user_input_date_range clk (line1 :: line2 :: rest) =
   Input.get_user_input_date_range clk rest)
  /\ (1900 <= start_year <= local_year clk ->
      1900 <= end_year <= local_year clk ->
      start_year <= end_year ->
      exists end_date_obj,
        Input.get_user_input_date_range clk (line1 :: line2 :: rest) =
        Some (mkdatetime start_year 1 1 0 0 0 0, end_date_obj)
        /\ (Datetime.us_since_epoch (utc_now clk)
            < Datetime.us_since_epoch december ->
            end_date_obj = mkdatetime (year (utc_now clk))
                             (month (utc_now clk)) (day (utc_now clk))
                             23 59 59 0)
        /\ (Datetime.us_since_epoch december
            <= Datetime.us_since_epoch (utc_now clk) ->
            end_date_obj = december)).
Proof.
  intros H1 H2 december. simpl. rewrite H1, H2. split.
  - intros Hbad. by rewrite date_range_rejects.
  - intros Hs He Hle. rewrite date_range_accepts by done.
    eexists. split; [reflexivity|].
    unfold Datetime.gt. fold december.
    destruct (Z.ltb_spec (Datetime.us_since_epoch (utc_now clk))
                         (Datetime.us_since_epoch december));
      split; intros; (done || lia).
Qed.

Lemma date_range_prompt_witness :
  Input.get_user_input_date_range
    (mkclock 2026 (mkdatetime 2026 11 4 10 30 0 0)) ["1999"; " 2025 "] =
  Some (mkdatetime 1999 1 1 0 0 0 0, mkdatetime 2025 12 31 23 59 59 0).
Proof.
  destruct (proj2 (date_range_prompt_contract
                     (mkclock 2026 (mkdatetime 2026 11 4 10 30 0 0))
                     "1999" " 2025 " [] 1999 2025 eq_refl eq_refl))
    as (end_date_obj & Hret & _ & Hend); [simpl; lia ..|].
  rewrite Hret, Hend; [reflexivity|vm_compute; discriminate].
Defined.

(** C5 (as stated) fails where it says the end is clamped to the current
    moment: at 10:30:00 on 4 November 2026 the end for the year 2026 is
    23:59:59 of that day, which is after the current time. *)
Lemma date_range_end_is_not_now :
  let clk := mkclock 2026 (mkdatetime 2026 11 4 10 30 0 0) in
  exists end_date_obj,
    Input.get_user_input_date_range clk ["2020"; "2026"] =
    Some (mkdatetime 2020 1 1 0 0 0 0, end_date_obj)
    /\ Datetime.gt (mkdatetime 2026 12 31 23 59 59 0) (utc_now clk) = true
    /\ end_date_obj <> utc_now clk
    /\ Datetime.gt end_date_obj (utc_now clk) = true.
Proof.
  eexists. split; [vm_compute; reflexivity|].
  split; [reflexivity|]. split; [discriminate|reflexivity].
Qed.

(* ===================================================================== *)
(** * Properties of the assembled table *)
(* ===================================================================== *)

Section ListFacts.

Context {A : Type}.

Lemma filter_is_sublist (f : A -> bool) (l : list A) :
  List.filter f l `sublist_of` l.
Proof.
  induction l as [|x l IH]; simpl; [constructor|].
  destruct (f x); by constructor.
Qed.

Lemma Forall_filter_true (f : A -> bool) (l : list A) :
  Forall (fun x => f x = true) (List.filter f l).
Proof.
  apply List.Forall_forall. intros x Hx.
  by apply List.filter_In in Hx as [_ ?].
Qed.

Lemma StronglySorted_sublist (R : relation A) (l k : list A) :
  k `sublist_of` l -> StronglySorted R l -> StronglySorted R k.
Proof.
  induction 1 as [|x k l Hsub IH|x k l Hsub IH]; intros Hsorted.
  - constructor.
  - apply StronglySorted_inv in Hsorted as [Hl Hx].
    constructor; [by apply IH|].
    rewrite Forall_forall in Hx. apply Forall_forall.
    intros y Hy. apply Hx. by eapply elem_of_sublist.
  - apply StronglySorted_inv in Hsorted as [Hl _]. by apply IH.
Qed.

Context {K : Type} `{EqDecision K}.

Lemma keep_first_spec (key : A -> K) (l : list A) (seen : list K) :
  NoDup (key <$> Pandas.keep_first key seen l)
  /\ Forall (fun x => key x ∉ seen) (Pandas.keep_first key seen l)
  /\ Pandas.keep_first key seen l `sublist_of` l.
Proof.
  revert seen. induction l as [|x l IH]; intros seen; simpl.
  - repeat split; constructor.
  - destruct (decide (key x ∈ seen)) as [Hin|Hout].
    + destruct (IH seen) as (Hnd & Hall & Hsub).
      repeat split; try done. by constructor.
    + destruct (IH (key x :: seen)) as (Hnd & Hall & Hsub).
      repeat split.
      * simpl. constructor; [|done].
        intros Hx. apply list_elem_of_fmap in Hx as (y & Hy & Hyin).
        rewrite List.Forall_forall in Hall.
        apply (Hall y); [by apply list_elem_of_In|].
        rewrite <- Hy. left.
      * constructor; [done|].
        eapply Forall_impl; [exact Hall|]. simpl.
        intros y Hy Hyin. apply Hy. by right.
      * by constructor.
Qed.

End ListFacts.

Section InstantOrder.

#[local] Instance instant_le_total : Total Pandas.instant_le.
Proof. intros [x|] [y|]; simpl; try tauto. lia. Qed.

#[local] Instance instant_le_trans : Transitive Pandas.instant_le.
Proof. intros [x|] [y|] [z|]; simpl; try tauto. lia. Qed.

#[local] Instance row_le_total c : Total (Pandas.row_le c).
Proof. intros r1 r2. apply instant_le_total. Qed.

#[local] Instance row_le_trans c : Transitive (Pandas.row_le c).
Proof. intros r1 r2 r3. apply instant_le_trans. Qed.

(** Instants that are sorted, distinct and all present are strictly
    ascending. *)
Lemma present_sorted_distinct (lo hi : Z) (keys : list (option Z)) :
  StronglySorted Pandas.instant_le keys ->
  NoDup keys ->
  Forall (fun k => exists t, k = Some t /\ lo <= t <= hi) keys ->
  exists ts,
    keys = Some <$> ts
    /\ StronglySorted Z.lt ts
    /\ NoDup ts
    /\ Forall (fun t => lo <= t <= hi) ts.
Proof.
  induction keys as [|k keys IH]; intros Hsorted Hnd Hall.
  - exists []. repeat split; constructor.
  - apply StronglySorted_inv in Hsorted as [Hsorted Hk].
    apply NoDup_cons in Hnd as [Hfresh Hnd].
    apply Forall_cons in Hall as [(t & -> & Ht) Hall].
    destruct (IH Hsorted Hnd Hall) as (ts & -> & Hts & Hndts & Hbounds).
    exists (t :: ts). repeat split.
    + constructor; [done|].
      apply List.Forall_forall. intros u Hu.
      apply list_elem_of_In in Hu.
      rewrite List.Forall_forall in Hk.
      assert (Hle : Pandas.instant_le (Some t) (Some u)).
      { apply Hk. apply list_elem_of_In. by apply list_elem_of_fmap_2. }
      simpl in Hle.
      assert (t <> u).
      { intros ->. apply Hfresh. by apply list_elem_of_fmap_2. }
      lia.
    + constructor; [|done].
      intros Hin. apply Hfresh. by apply list_elem_of_fmap_2.
    + by constructor.
Qed.

(** The rows that are left of any rows after dropping duplicates,
    sorting and cutting to a window. *)
Lemma window_rows_ascending (c : string) (lo hi : Z)
    (rows0 : list (gmap string cell)) :
  let kept :=
    List.filter
      (fun r => match Pandas.time_of c r with
                | Some t => (lo <=? t) && (t <=? hi)
                | None => false
                end)
      (merge_sort (Pandas.row_le c)
         (Pandas.keep_first (Pandas.time_of c) [] rows0)) in
  exists ts,
    Pandas.time_of c <$> kept = Some <$> ts
    /\ StronglySorted Z.lt ts
    /\ NoDup ts
    /\ Forall (fun t => lo <= t <= hi) ts.
Proof.
  intros kept. apply present_sorted_distinct.
  - apply (StronglySorted_fmap _ (Pandas.row_le c)); [done|].
    eapply StronglySorted_sublist; [apply filter_is_sublist|].
    apply (StronglySorted_merge_sort (Pandas.row_le c)).
  - eapply sublist_NoDup; [|apply fmap_sublist, filter_is_sublist].
    rewrite (merge_sort_Permutation (Pandas.row_le c)).
    apply keep_first_spec.
  - apply Forall_fmap. unfold kept.
    eapply Forall_impl; [apply Forall_filter_true|]. simpl.
    intros r Hr. destruct (Pandas.time_of c r) as [t|]; [|done].
    exists t. split; [done|]. lia.
Qed.

End InstantOrder.

(* ===================================================================== *)
(** * Facts about the modelled pandas calls *)
(* ===================================================================== *)

Section PandasFacts.

Context `{PandasOracle}.

Lemma mapM_as_dict (tickers : list json) (dicts : list (gmap string json)) :
  mapM Pandas.as_dict tickers = Some dicts <-> tickers = JObj <$> dicts.
Proof.
  rewrite mapM_Some. split.
  - induction 1 as [|t m ts ms Ht _ IH]; [done|].
    destruct t; try done. injection Ht as ->. simpl. by f_equal.
  - intros ->. induction dicts; constructor; auto.
Qed.

Lemma to_numeric_cell_cases (c : cell) :
  Pandas.to_numeric_cell c = NaN \/ exists q, Pandas.to_numeric_cell c = Float q.
Proof.
  destruct c as [[]| | | |]; simpl; eauto;
    match goal with
    | |- context [to_numeric_other ?c] => destruct (to_numeric_other c); simpl; eauto
    end.
Qed.

Lemma row_of_dict_at (labels : gset string) (m : gmap string json) (c : string) :
  Pandas.at_label c (Pandas.row_of_dict labels m) = Spec.ticker_cell m c.
Proof.
  unfold Pandas.at_label, Pandas.row_of_dict, Spec.ticker_cell.
  rewrite lookup_union, lookup_fmap, lookup_gset_to_gmap.
  destruct (m !! c); simpl.
  - by destruct (guard (c ∈ labels)).
  - destruct (guard (c ∈ labels)); simpl; done.
Qed.

Lemma row_of_dict_lookup (labels : gset string) (m : gmap string json) (c : string) :
  c ∈ labels ->
  Pandas.row_of_dict labels m !! c = Some (Spec.ticker_cell m c).
Proof.
  intros Hc. unfold Pandas.row_of_dict, Spec.ticker_cell.
  rewrite lookup_union, lookup_fmap, lookup_gset_to_gmap.
  rewrite option_guard_True by done.
  by destruct (m !! c).
Qed.

Lemma zip_with_fmap_same {A B C} (f : A -> B -> C) (g : A -> B) (l : list A) :
  zip_with f l (g <$> l) = (fun x => f x (g x)) <$> l.
Proof. induction l; simpl; by f_equal. Qed.

Lemma select_existing (df : DataFrame) (cols : list string) :
  Pandas.select df
    (List.filter (fun col => bool_decide (col ∈ columns df)) cols)
  = Returned
      (mkDataFrame
         (List.filter (fun col => bool_decide (col ∈ columns df)) cols)
         ((fun r : gmap string cell =>
             filter (fun kv =>
                       kv.1 ∈ List.filter
                                (fun col => bool_decide (col ∈ columns df))
                                cols) r)
            <$> rows df)).
Proof.
  unfold Pandas.select.
  replace (forallb _ _) with true; [done|].
  symmetry. apply forallb_forall. intros c Hc.
  by apply List.filter_In in Hc as [_ ?].
Qed.

Lemma bind_Returned {A B} (a : A) (f : A -> outcome B) :
  (Returned a ≫= f) = f a.
Proof. reflexivity. Qed.

Lemma DataFrame_of_dicts (dicts : list (gmap string json)) :
  Pandas.DataFrame_of (JObj <$> dicts) =
  Returned
    (Some (mkDataFrame (elements (⋃ (dom <$> dicts) : gset string))
             (Pandas.row_of_dict (⋃ (dom <$> dicts)) <$> dicts))).
Proof.
  unfold Pandas.DataFrame_of.
  by rewrite (proj2 (mapM_as_dict (JObj <$> dicts) dicts) eq_refl).
Qed.

Lemma getcol_present (df : DataFrame) (c : string) :
  c ∈ columns df ->
  Pandas.getcol df c = Returned (Pandas.at_label c <$> rows df).
Proof. intros Hc. unfold Pandas.getcol. by rewrite decide_True. Qed.

Lemma setcol_present (df : DataFrame) (c : string) (f : cell -> cell) :
  c ∈ columns df ->
  Pandas.setcol df c (f <$> (Pandas.at_label c <$> rows df)) =
  mkDataFrame (columns df)
    ((fun r => <[c := f (Pandas.at_label c r)]> r) <$> rows df).
Proof.
  intros Hc. unfold Pandas.setcol. rewrite decide_True by done.
  by rewrite <- list_fmap_compose, zip_with_fmap_same.
Qed.

Lemma label_of_some_ticker (dicts : list (gmap string json)) (c : string) :
  c ∈ (⋃ (dom <$> dicts) : gset string) <->
  exists m, m ∈ dicts /\ is_Some (m !! c).
Proof.
  rewrite elem_of_union_list. split.
  - intros (X & HX & Hc). apply list_elem_of_fmap in HX as (m & -> & Hm).
    exists m. split; [done|]. by apply elem_of_dom.
  - intros (m & Hm & Hc). exists (dom m). split.
    + by apply list_elem_of_fmap_2.
    + by apply elem_of_dom.
Qed.

Lemma mapM_outcome_returns {A B} (f : A -> outcome B) (l : list A) :
  Forall (fun x => exists y, f x = Returned y) l ->
  exists k, mapM f l = Returned k.
Proof.
  induction 1 as [|x l [y Hy] _ [k Hk]]; simpl.
  - by exists [].
  - exists (y :: k). by rewrite Hy, Hk.
Qed.

End PandasFacts.

Section TableProperties.

Context `{PandasOracle}.

Lemma select_keeps_time (cols : list string) (r : gmap string cell) :
  "time" ∈ cols ->
  Pandas.time_of "time" (filter (fun kv => kv.1 ∈ cols) r)
  = Pandas.time_of "time" r.
Proof.
  intros Hin. unfold Pandas.time_of, Pandas.at_label.
  rewrite map_lookup_filter.
  destruct (r !! "time") as [v|]; simpl; [|done].
  by rewrite option_guard_True.
Qed.

(** The rows of an assembled table come from some rows by dropping
    duplicate instants, sorting, cutting to the window and selecting
    the six columns. *)
Lemma assemble_rows (candles : list json)
    (start_time_dt end_time_dt : datetime) (df : DataFrame) :
  Candles.assemble candles start_time_dt end_time_dt = Returned df ->
  exists rows0,
    df = mkDataFrame Candles.OHLC_COLUMNS
           ((fun r : gmap string cell =>
               filter (fun kv => kv.1 ∈ Candles.OHLC_COLUMNS) r) <$>
            List.filter
              (fun r =>
                 match Pandas.time_of "time" r with
                 | Some t =>
                     (Datetime.us_since_epoch start_time_dt * 1000 <=? t)
                     && (t <=? Datetime.us_since_epoch end_time_dt * 1000)
                 | None => false
                 end)
              (merge_sort (Pandas.row_le "time")
                 (Pandas.keep_first (Pandas.time_of "time") [] rows0))).
Proof.
  unfold Candles.assemble.
  destruct (Pandas.DataFrame_of candles) as [[df0|]|e]; simpl; try done.
  destruct (Pandas.getcol df0 "time") as [time|e]; simpl; try done.
  destruct (Pandas.to_datetime time) as [converted|e]; simpl; try done.
  unfold Pandas.select.
  destruct (forallb _ _); [|done].
  intros [= <-]. eexists. reflexivity.
Qed.

(** A table is assembled, and not an exception raised, from candles that
    are JSON objects whose [time] is an int pandas can hold, when each of
    the six columns is a key of some candle. *)
Lemma assemble_returns (dicts : list (gmap string json))
    (start_time_dt end_time_dt : datetime) :
  Forall (fun m : gmap string json =>
            exists z, m !! "time" = Some (JInt z)
                      /\ - Pandas.MAX_SECONDS <= z <= Pandas.MAX_SECONDS)
         dicts ->
  Forall (fun c => exists m, m ∈ dicts /\ is_Some (m !! c))
         Candles.OHLC_COLUMNS ->
  exists df,
    Candles.assemble (JObj <$> dicts) start_time_dt end_time_dt
    = Returned df.
Proof.
  intros Htimes Hcols. unfold Candles.assemble.
  rewrite DataFrame_of_dicts, bind_Returned.
  set (labels := (⋃ (dom <$> dicts) : gset string)).
  set (df0 := mkDataFrame _ _).
  assert (Hlabels : forall c, c ∈ Candles.OHLC_COLUMNS -> c ∈ columns df0).
  { intros c Hc. rewrite Forall_forall in Hcols.
    unfold df0. simpl. apply elem_of_elements, label_of_some_ticker.
    by apply Hcols. }
  assert (Htime : "time" ∈ columns df0).
  { apply Hlabels. unfold Candles.OHLC_COLUMNS. set_solver. }
  rewrite getcol_present, bind_Returned by done.
  destruct (mapM_outcome_returns Pandas.to_datetime_cell
              (Pandas.at_label "time" <$> rows df0)) as [converted Hconv].
  { unfold df0. simpl. apply Forall_forall. intros c Hc.
    apply list_elem_of_fmap in Hc as (r & -> & Hr).
    apply list_elem_of_fmap in Hr as (m & -> & Hm).
    rewrite Forall_forall in Htimes.
    destruct (Htimes m Hm) as (z & Hz & Hrange).
    rewrite row_of_dict_at. unfold Spec.ticker_cell. rewrite Hz. simpl.
    replace ((- Pandas.MAX_SECONDS <=? z) && (z <=? Pandas.MAX_SECONDS))
      with true by lia.
    eauto. }
  unfold Pandas.to_datetime. rewrite Hconv, bind_Returned.
  unfold Pandas.select.
  replace (forallb _ _) with true; [eauto|].
  symmetry. apply forallb_forall. intros c Hc.
  apply bool_decide_eq_true. simpl.
  rewrite decide_True by done.
  apply Hlabels. by apply list_elem_of_In.
Qed.

(** C1.  Whenever [get_ohlc_data_paginated] returns a table, whatever
    the exchange sent, the instants in its [time] column are strictly
    ascending, hence without duplicates, and each lies between
    [start_time_dt] and [end_time_dt], bounds included (instants in
    nanoseconds since the epoch). *)
Theorem table_ascending_in_window
    (fuel : nat) (api : nat -> request -> outcome Response)
    (symbol resolution : string) (start_time_dt end_time_dt : datetime)
    (limit_per_request : Z) (df : DataFrame) :
  Candles.get_ohlc_data_paginated fuel api symbol resolution
    start_time_dt end_time_dt limit_per_request = Some (Returned df) ->
  exists ts,
    Pandas.time_of "time" <$> rows df = Some <$> ts
    /\ StronglySorted Z.lt ts
    /\ NoDup ts
    /\ Forall (fun t =>
                 Datetime.us_since_epoch start_time_dt * 1000 <= t
                 <= Datetime.us_since_epoch end_time_dt * 1000) ts.
Proof.
  unfold Candles.get_ohlc_data_paginated.
  destruct (Candles.fetch_pages _ _ _ _ _ _ _) as [st|]; simpl; [|done].
  intros [= Htable]. unfold Candles.table_of in Htable.
  destruct (Candles.all_candles st) as [|c candles].
  - injection Htable as <-. exists []. repeat split; constructor.
  - apply assemble_rows in Htable as [rows0 ->]. simpl.
    rewrite <- list_fmap_compose.
    erewrite (list_fmap_ext _ (Pandas.time_of "time")).
    + apply window_rows_ascending.
    + intros i r _. simpl. apply select_keeps_time.
      unfold Candles.OHLC_COLUMNS. set_solver.
Qed.

End TableProperties.

(* ===================================================================== *)
(** * Properties of the pagination loop *)
(* ===================================================================== *)

Section LoopProperties.

Import Candles.

Context `{PandasOracle}.
Variable api : nat -> request -> outcome Response.
Variables symbol resolution : string.
Variables overall_end_timestamp limit_per_request : Z.

#[local] Abbreviation request_at st :=
  (candles_request symbol resolution overall_end_timestamp
     limit_per_request (current_chunk_start_timestamp st)).
#[local] Abbreviation answer_at st := (api (length (calls st)) (request_at st)).
#[local] Abbreviation logged st := (calls st ++ [request_at st])%list.
#[local] Abbreviation iteration :=
  (iteration api symbol resolution overall_end_timestamp limit_per_request).
#[local] Abbreviation pagination_loop :=
  (pagination_loop api symbol resolution overall_end_timestamp
     limit_per_request).
#[local] Abbreviation pass :=
  (Spec.pass api symbol resolution overall_end_timestamp limit_per_request).
#[local] Abbreviation fetched :=
  (Spec.fetched api symbol resolution overall_end_timestamp
     limit_per_request).

Lemma fetched_page (st : loop_state) (page : list json) :
  fetched st = Some page ->
  Datetime.fromtimestamp (current_chunk_start_timestamp st) = Returned tt
  /\ Spec.page_of (answer_at st) = Some page.
Proof.
  unfold Spec.fetched.
  by destruct (Datetime.fromtimestamp _) as [[]|].
Qed.

Lemma iteration_pass (st : loop_state) : iteration st = pass st.
Proof.
  unfold Spec.pass, Candles.iteration, try_body, Spec.page_of.
  unfold mbind, M_bind, bind, requests_get, lift, mret, M_ret, ret.
  destruct (Datetime.fromtimestamp _) as [[]|e]; simpl.
  2:{ destruct st. by destruct (is_RequestException e). }
  destruct (answer_at st) as [[s b]|e]; simpl.
  2:{ by destruct (is_RequestException e). }
  destruct (raise_for_status _) as [[]|e]; simpl.
  2:{ by destruct (is_RequestException e). }
  destruct (response_json _) as [j|e]; simpl.
  2:{ by destruct (is_RequestException e). }
  destruct (result_list j) as [[page|]|e]; simpl.
  2:{ done. }
  2:{ by destruct (is_RequestException e). }
  destruct page as [|c page]; [done|].
  unfold extend, set_cursor, Spec.last_time, py_ge, py_add1.
  set (full := c :: page).
  destruct (py_getitem (List.last full JNull) "time") as [v|e]; simpl.
  2:{ by destruct (is_RequestException e). }
  destruct (as_int v) as [t|]; simpl; [|done].
  destruct (overall_end_timestamp <=? t); simpl; [reflexivity|].
  by destruct (Z.of_nat (S (length page)) <? limit_per_request).
Qed.

Lemma loop_step (fuel : nat) (st : loop_state) :
  current_chunk_start_timestamp st <= overall_end_timestamp ->
  pagination_loop (S fuel) st =
  match pass st with
  | (st', Continue) => pagination_loop fuel st'
  | (st', Break) => Some st'
  end.
Proof.
  intros Hle. simpl. rewrite iteration_pass.
  by replace (_ <=? _) with true by lia.
Qed.

Lemma loop_done (fuel : nat) (st : loop_state) :
  overall_end_timestamp < current_chunk_start_timestamp st ->
  pagination_loop fuel st = Some st.
Proof.
  intros Hgt. destruct fuel; simpl;
    by replace (_ <=? _) with false by lia.
Qed.

(** A pass that goes on has read a full page whose last timestamp is
    below the end, and has moved the cursor just past it. *)
Lemma pass_continue (st st' : loop_state) :
  pass st = (st', Continue) ->
  exists page t,
    Spec.page_of (answer_at st) = Some page
    /\ Spec.last_time page = Some t
    /\ t < overall_end_timestamp
    /\ limit_per_request <= Z.of_nat (length page)
    /\ st' = mkstate (t + 1) (all_candles st ++ page) (logged st).
Proof.
  unfold Spec.pass.
  destruct (Datetime.fromtimestamp _); [|done].
  destruct (Spec.page_of (answer_at st)) as [[|c page]|]; try done.
  destruct (Spec.last_time (c :: page)) as [t|] eqn:Et; try done.
  destruct (Z.leb_spec overall_end_timestamp t); try done.
  destruct (Z.ltb_spec (Z.of_nat (length (c :: page))) limit_per_request);
    try done.
  intros [= <-]. exists (c :: page), t. repeat split; (done || lia).
Qed.

(** C2.  A pass of the loop that fetches a non-empty page whose last
    timestamp is below [overall_end_timestamp] and that holds fewer
    candles than [limit_per_request] ends the loop: the page is
    appended to the candles gathered so far and the log of calls grows
    by this one call only, although the end time was not reached. *)
Theorem short_page_ends_loop
    (fuel : nat) (st : loop_state) (page : list json) (t : Z) :
  current_chunk_start_timestamp st <= overall_end_timestamp ->
  fetched st = Some page ->
  page <> [] ->
  Spec.last_time page = Some t ->
  t < overall_end_timestamp ->
  Z.of_nat (length page) < limit_per_request ->
  pagination_loop (S fuel) st =
  Some (mkstate (t + 1) (all_candles st ++ page) (logged st)).
Proof.
  intros Hle [Hdate Hpage]%fetched_page Hne Ht Hlt Hshort.
  rewrite loop_step by done. unfold Spec.pass. rewrite Hdate, Hpage.
  destruct page as [|c page]; [done|]. rewrite Ht.
  replace (overall_end_timestamp <=? t) with false by lia.
  by replace (_ <? limit_per_request) with true by lia.
Qed.


Lemma loop_terminates_from (n : nat) :
  (forall i c page t,
     Spec.page_of
       (api i (candles_request symbol resolution overall_end_timestamp
                 limit_per_request c)) = Some page ->
     limit_per_request <= Z.of_nat (length page) ->
     Spec.last_time page = Some t ->
     c <= t) ->
  forall st,
    overall_end_timestamp - current_chunk_start_timestamp st + 1
      <= Z.of_nat n ->
    exists st', forall fuel, (n <= fuel)%nat ->
      pagination_loop fuel st = Some st'.
Proof.
  intros Hfresh. induction n as [|n IH]; intros st Hn.
  - exists st. intros fuel _. apply loop_done. lia.
  - destruct (Z.lt_ge_cases overall_end_timestamp
                (current_chunk_start_timestamp st)) as [Hgt|Hle].
    { exists st. intros fuel _. by apply loop_done. }
    destruct (pass st) as [st1 [|]] eqn:Epass.
    + destruct (pass_continue _ _ Epass)
        as (page & t & Hpage & Ht & Hlt & Hfull & ->).
      pose proof (Hfresh _ _ _ _ Hpage Hfull Ht) as Hprogress.
      destruct (IH (mkstate (t + 1) (all_candles st ++ page) (logged st)))
        as [st' Hst']; [simpl; lia|].
      exists st'. intros [|fuel] Hfuel; [lia|].
      rewrite loop_step, Epass by lia. apply Hst'. lia.
    + exists st1. intros [|fuel] Hfuel; [lia|].
      by rewrite loop_step, Epass by lia.
Qed.

(** C9.  Take an exchange whose pages hold at most [limit_per_request]
    candles, as a candle page does, and each of whose full-size pages
    (of exactly [limit_per_request] candles) ends on a timestamp that is
    not before the cursor it was asked from.  Then every pass that goes
    on moves the cursor strictly forward and leaves it at most at
    [overall_end_timestamp], and the loop ends from every state: after
    at most [overall_end_timestamp - cursor + 1] passes it has
    returned. *)
Theorem pagination_terminates (st : loop_state) :
  (forall i c page,
     Spec.page_of
       (api i (candles_request symbol resolution overall_end_timestamp
                 limit_per_request c)) = Some page ->
     Z.of_nat (length page) <= limit_per_request) ->
  (forall i c page t,
     Spec.page_of
       (api i (candles_request symbol resolution overall_end_timestamp
                 limit_per_request c)) = Some page ->
     Z.of_nat (length page) = limit_per_request ->
     Spec.last_time page = Some t ->
     c <= t) ->
  (forall st1 st2,
     iteration st1 = (st2, Continue) ->
     current_chunk_start_timestamp st1 < current_chunk_start_timestamp st2
       <= overall_end_timestamp)
  /\ exists st',
       forall fuel,
         (Z.to_nat (overall_end_timestamp
                    - current_chunk_start_timestamp st + 1) <= fuel)%nat ->
         pagination_loop fuel st = Some st'.
Proof.
  intros Hbound Hfull.
  assert (Hfresh : forall i c page t,
            Spec.page_of
              (api i (candles_request symbol resolution
                        overall_end_timestamp limit_per_request c))
            = Some page ->
            limit_per_request <= Z.of_nat (length page) ->
            Spec.last_time page = Some t ->
            c <= t).
  { intros i c page t Hpage Hsize Ht.
    apply (Hfull i c page t Hpage); [|done].
    pose proof (Hbound i c page Hpage). lia. }
  split.
  - intros st1 st2. rewrite iteration_pass. intros Epass.
    destruct (pass_continue _ _ Epass)
      as (page & t & Hpage & Ht & Hlt & Hsize & ->).
    pose proof (Hfresh _ _ _ _ Hpage Hsize Ht) as Hprogress.
    simpl. lia.
  - apply (loop_terminates_from _ Hfresh). lia.
Qed.

End LoopProperties.

Section FunctionProperties.

Import Candles.
Context `{PandasOracle}.

(** C6 (as the code has it).  When the loop ends without a candle
    gathered, as it does after an empty first page,
    [get_ohlc_data_paginated] returns without raising, and what it
    returns is [pd.DataFrame()]: a frame with no rows and no columns.
    The six columns [time], [open], [high], [low], [close], [volume] are
    those of every table that is assembled from gathered candles. *)
Theorem nothing_gathered_gives_bare_frame
    (fuel : nat) (api : nat -> request -> outcome Response)
    (symbol resolution : string) (start_time_dt end_time_dt : datetime)
    (limit_per_request : Z) :
  (forall st,
     fetch_pages fuel api symbol resolution start_time_dt end_time_dt
       limit_per_request = Some st ->
     all_candles st = [] ->
     get_ohlc_data_paginated fuel api symbol resolution start_time_dt
       end_time_dt limit_per_request
     = Some (Returned (mkDataFrame [] [])))
  /\ (Datetime.int_timestamp start_time_dt
        <= Datetime.int_timestamp end_time_dt ->
      Spec.page_of
        (api 0%nat
           (candles_request symbol resolution
              (Datetime.int_timestamp end_time_dt) limit_per_request
              (Datetime.int_timestamp start_time_dt))) = Some [] ->
      get_ohlc_data_paginated (S fuel) api symbol resolution start_time_dt
        end_time_dt limit_per_request
      = Some (Returned (mkDataFrame [] [])))
  /\ (forall candles df,
        assemble candles start_time_dt end_time_dt = Returned df ->
        columns df = OHLC_COLUMNS).
Proof.
  split; [|split].
  - intros st Hst Hnone. unfold get_ohlc_data_paginated.
    rewrite Hst. simpl. by rewrite Hnone.
  - intros Hle Hpage. unfold get_ohlc_data_paginated, fetch_pages.
    rewrite loop_step by done. unfold Spec.pass. simpl.
    rewrite Hpage. by destruct (Datetime.fromtimestamp _).
  - intros candles df Hdf.
    by apply assemble_rows in Hdf as [rows0 ->].
Qed.

(** C3.  A pass of the loop that goes on has set the cursor to the
    timestamp of the last candle of its page plus one.  So an exchange
    that holds ten daily candles and hands out at most four per call
    is read, with [limit_per_request = 4], in exactly three calls with
    pages of 4, 4 and 2 candles, and the table has ten rows, one for
    each of the ten days. *)
Theorem ten_days_in_three_calls :
  (forall api symbol resolution overall_end_timestamp limit_per_request
          st st',
     iteration api symbol resolution overall_end_timestamp
       limit_per_request st = (st', Continue) ->
     exists page t,
       Spec.page_of
         (api (length (calls st))
            (candles_request symbol resolution overall_end_timestamp
               limit_per_request (current_chunk_start_timestamp st)))
       = Some page
       /\ Spec.last_time page = Some t
       /\ current_chunk_start_timestamp st' = t + 1)
  /\ forall fuel, (3 <= fuel)%nat ->
     exists st df,
       fetch_pages fuel (Example.exchange 4 Example.daily_candles)
         "BTCUSD" "1d" Example.window_start Example.window_end 4 = Some st
       /\ length (calls st) = 3%nat
       /\ Spec.page_sizes (Example.exchange 4 Example.daily_candles)
            (calls st) = [4; 4; 2]%nat
       /\ get_ohlc_data_paginated fuel
            (Example.exchange 4 Example.daily_candles) "BTCUSD" "1d"
            Example.window_start Example.window_end 4 = Some (Returned df)
       /\ length (rows df) = 10%nat
       /\ Pandas.time_of "time" <$> rows df
          = (fun t => Some (t * 1000000000)) <$> Example.ten_days.
Proof.
  split.
  - intros api symbol resolution overall_end_timestamp limit_per_request
           st st' Hpass.
    rewrite iteration_pass in Hpass.
    destruct (pass_continue _ _ _ _ _ _ _ Hpass)
      as (page & t & Hpage & Ht & _ & _ & ->).
    by exists page, t.
  - intros fuel Hfuel.
    destruct fuel as [|[|[|fuel]]]; try lia.
    eexists. eexists.
    split. { vm_compute. reflexivity. }
    split. { vm_compute. reflexivity. }
    split. { vm_compute. reflexivity. }
    split. { vm_compute. reflexivity. }
    split. { vm_compute. reflexivity. }
    vm_compute. reflexivity.
Qed.

End FunctionProperties.

(* ===================================================================== *)
(** * Properties of the ranking *)
(* ===================================================================== *)

Section RankingProperties.

Context `{PandasOracle}.

Import Ranking.

#[local] Instance row_ge_total c : Total (Pandas.row_ge c).
Proof.
  intros r1 r2. unfold Pandas.row_ge.
  destruct (Qlt_le_dec (Pandas.number (Pandas.at_label c r1))
                       (Pandas.number (Pandas.at_label c r2)));
    auto using Qlt_le_weak.
Qed.

#[local] Instance row_ge_trans c : Transitive (Pandas.row_ge c).
Proof. intros r1 r2 r3 H12 H23. unfold Pandas.row_ge in *. eapply Qle_trans; eauto. Qed.

Lemma top_n_regular (get : request -> outcome Response) (n : Z)
    (dicts : list (gmap string json)) :
  Fetchers.get_all_tickers get BASE_URL = Returned (JObj <$> dicts) ->
  dicts <> [] ->
  VOLUME_COLUMN ∈ (⋃ (dom <$> dicts) : gset string) ->
  let existing :=
    List.filter
      (fun col => bool_decide (col ∈ elements (⋃ (dom <$> dicts) : gset string)))
      desired_cols in
  get_top_n_symbols_by_volume get n =
  Returned
    (mkDataFrame existing
       ((fun r : gmap string cell =>
           filter (fun kv => kv.1 ∈ existing) r)
          <$> Spec.ranked_rows n dicts)).
Proof.
  intros Htickers Hne Hvol existing.
  unfold get_top_n_symbols_by_volume.
  rewrite Htickers, bind_Returned.
  destruct dicts as [|m dicts]; [done|].
  rewrite fmap_cons. cbv iota. rewrite <- fmap_cons.
  set (ds := m :: dicts) in *.
  rewrite DataFrame_of_dicts, bind_Returned.
  set (df0 := mkDataFrame _ _).
  assert (Hcol : VOLUME_COLUMN ∈ columns df0)
    by (unfold df0; simpl; by apply elem_of_elements).
  rewrite decide_True by done.
  rewrite getcol_present, bind_Returned by done.
  rewrite setcol_present by done.
  rewrite select_existing. reflexivity.
Qed.

Lemma StronglySorted_adjacent {A} (R : relation A) (l : list A)
    (i : nat) (a b : A) :
  StronglySorted R l -> l !! i = Some a -> l !! S i = Some b -> R a b.
Proof.
  intros Hsorted. revert i.
  induction Hsorted as [|x l Hl IH Hx]; intros i Ha Hb; [done|].
  destruct i as [|i]; simpl in *.
  - injection Ha as <-. rewrite Forall_forall in Hx.
    apply Hx. apply list_elem_of_lookup. eauto.
  - eauto.
Qed.

Lemma head_sublist (n : Z) (df : DataFrame) :
  rows (Pandas.head n df) `sublist_of` rows df.
Proof. unfold Pandas.head. simpl. destruct (0 <=? n); apply sublist_take. Qed.

Lemma head_length (n : Z) (df : DataFrame) :
  0 <= n -> Z.of_nat (length (rows (Pandas.head n df))) <= n.
Proof.
  intros Hn. unfold Pandas.head. simpl.
  replace (0 <=? n) with true by lia.
  rewrite length_take. lia.
Qed.

Lemma ranked_rows_sorted (n : Z) (dicts : list (gmap string json)) :
  StronglySorted (Pandas.row_ge VOLUME_COLUMN) (Spec.ranked_rows n dicts).
Proof.
  unfold Spec.ranked_rows.
  eapply StronglySorted_sublist; [apply head_sublist|].
  apply (StronglySorted_merge_sort (Pandas.row_ge VOLUME_COLUMN)).
Qed.

Lemma ranked_rows_length (n : Z) (dicts : list (gmap string json)) :
  0 <= n -> Z.of_nat (length (Spec.ranked_rows n dicts)) <= n.
Proof. intros Hn. unfold Spec.ranked_rows. by apply head_length. Qed.

Lemma objects_as_dicts (tickers : list json) :
  Forall (fun t => exists m, t = JObj m) tickers ->
  tickers = JObj <$> omap Pandas.as_dict tickers.
Proof.
  induction 1 as [|t ts [m ->] _ IH]; [done|].
  csimpl. by f_equal.
Qed.

Lemma ranked_rows_origin (n : Z) (dicts : list (gmap string json))
    (r : gmap string cell) :
  r ∈ Spec.ranked_rows n dicts ->
  exists m q,
    m ∈ dicts
    /\ Pandas.to_numeric_cell (Spec.ticker_cell m VOLUME_COLUMN) = Float q
    /\ r = <[VOLUME_COLUMN := Float q]>
             (Pandas.row_of_dict (⋃ (dom <$> dicts)) m).
Proof.
  unfold Spec.ranked_rows. intros Hr.
  eapply elem_of_sublist in Hr; [|apply head_sublist].
  simpl in Hr.
  rewrite (merge_sort_Permutation (Pandas.row_ge VOLUME_COLUMN)) in Hr.
  apply list_elem_of_In, List.filter_In in Hr as [Hr Hna].
  apply list_elem_of_In in Hr.
  apply list_elem_of_fmap in Hr as (r0 & -> & Hr0).
  apply list_elem_of_fmap in Hr0 as (m & -> & Hm).
  unfold Pandas.at_label in Hna at 1.
  rewrite lookup_insert_eq in Hna. simpl in Hna.
  rewrite row_of_dict_at in Hna |- *.
  destruct (to_numeric_cell_cases (Spec.ticker_cell m VOLUME_COLUMN))
    as [E|[q E]]; rewrite E in Hna |- *; [done|].
  by exists m, q.
Qed.

Lemma existing_cols_spec (labels : gset string) (c : string) :
  c ∈ List.filter (fun col => bool_decide (col ∈ elements labels))
        desired_cols
  <-> c ∈ desired_cols /\ c ∈ labels.
Proof.
  rewrite !list_elem_of_In, List.filter_In, bool_decide_eq_true.
  by rewrite elem_of_elements.
Qed.

(** What the specification says of a returned ranking [df] of the
    fetched [tickers]. *)
Lemma top_n_returned (get : request -> outcome Response) (n : Z)
    (tickers : list json) (df : DataFrame) :
  Fetchers.get_all_tickers get BASE_URL = Returned tickers ->
  get_top_n_symbols_by_volume get n = Returned df ->
  df = Pandas.empty
  /\ (tickers = []
      \/ (exists t, t ∈ tickers /\ forall m, t <> JObj m)
      \/ forall m, JObj m ∈ tickers -> m !! VOLUME_COLUMN = None)
  \/ exists dicts,
       tickers = JObj <$> dicts
       /\ VOLUME_COLUMN ∈ (⋃ (dom <$> dicts) : gset string)
       /\ df = mkDataFrame
                (List.filter
                   (fun col =>
                      bool_decide
                        (col ∈ elements (⋃ (dom <$> dicts) : gset string)))
                   desired_cols)
                ((fun r : gmap string cell =>
                    filter
                      (fun kv =>
                         kv.1 ∈ List.filter
                                  (fun col =>
                                     bool_decide
                                       (col ∈ elements
                                                (⋃ (dom <$> dicts)
                                                 : gset string)))
                                  desired_cols) r)
                   <$> Spec.ranked_rows n dicts).
Proof.
  intros Htickers Hret.
  destruct tickers as [|t tickers].
  { left. unfold get_top_n_symbols_by_volume in Hret.
    rewrite Htickers, bind_Returned in Hret. injection Hret as <-. eauto. }
  destruct (mapM Pandas.as_dict (t :: tickers)) as [dicts|] eqn:Edicts.
  - apply mapM_as_dict in Edicts.
    assert (Hne : dicts <> []) by (intros ->; done).
    rewrite Edicts in *.
    destruct (decide (VOLUME_COLUMN ∈ (⋃ (dom <$> dicts) : gset string)))
      as [Hvol|Hno].
    + right. exists dicts. repeat split; try done.
      rewrite (top_n_regular get n dicts) in Hret by done.
      by injection Hret as <-.
    + left. unfold get_top_n_symbols_by_volume in Hret.
      rewrite Htickers, bind_Returned in Hret.
      destruct dicts as [|m dicts]; [done|].
      rewrite fmap_cons in Hret. cbv iota in Hret.
      rewrite <- fmap_cons in Hret.
      rewrite DataFrame_of_dicts, bind_Returned in Hret.
      rewrite decide_False in Hret.
      2:{ simpl. by rewrite elem_of_elements. }
      injection Hret as <-. split; [done|].
      right. right. intros m' Hm'.
      apply list_elem_of_fmap in Hm' as (m'' & [= <-] & Hin).
      destruct (m' !! VOLUME_COLUMN) eqn:E; [|done].
      destruct Hno. apply label_of_some_ticker. eauto.
  - left. unfold get_top_n_symbols_by_volume in Hret.
    rewrite Htickers, bind_Returned in Hret. cbv iota in Hret.
    unfold Pandas.DataFrame_of in Hret. rewrite Edicts in Hret.
    destruct (irregular_frame (t :: tickers)); [done|].
    rewrite bind_Returned in Hret. injection Hret as <-.
    split; [done|]. right. left.
    apply mapM_None, Exists_exists in Edicts as (t' & Ht' & Hnone).
    exists t'. split; [done|]. by intros m ->.
Qed.

Lemma top_n_returns (get : request -> outcome Response) (n : Z)
    (dicts : list (gmap string json)) :
  Fetchers.get_all_tickers get BASE_URL = Returned (JObj <$> dicts) ->
  exists df, get_top_n_symbols_by_volume get n = Returned df.
Proof.
  intros Htickers.
  destruct (decide (dicts = [])) as [->|Hne].
  { unfold get_top_n_symbols_by_volume.
    rewrite Htickers, bind_Returned. simpl. eauto. }
  destruct (decide (VOLUME_COLUMN ∈ (⋃ (dom <$> dicts) : gset string)))
    as [Hvol|Hno].
  - rewrite (top_n_regular get n dicts) by done. eauto.
  - unfold get_top_n_symbols_by_volume.
    rewrite Htickers, bind_Returned.
    destruct dicts as [|m dicts]; [done|].
    rewrite fmap_cons. cbv iota. rewrite <- fmap_cons.
    rewrite DataFrame_of_dicts, bind_Returned.
    rewrite decide_False; [eauto|].
    simpl. by rewrite elem_of_elements.
Qed.

Lemma numeric_tickers_dicts (dicts : list (gmap string json)) :
  Spec.numeric_tickers (JObj <$> dicts) = omap Spec.numeric_turnover dicts.
Proof.
  unfold Spec.numeric_tickers.
  induction dicts as [|m dicts IH]; [done|].
  rewrite fmap_cons.
  cbn [omap list_omap Pandas.as_dict mbind option_bind].
  by rewrite IH.
Qed.

Lemma numeric_tickers_without_turnover (dicts : list (gmap string json)) :
  (forall m, m ∈ dicts -> m !! VOLUME_COLUMN = None) ->
  Spec.numeric_tickers (JObj <$> dicts) = [].
Proof.
  rewrite numeric_tickers_dicts.
  induction dicts as [|m dicts IH]; intros Hnone; [done|].
  simpl. unfold Spec.numeric_turnover at 1, Spec.ticker_cell.
  rewrite (Hnone m) by left. simpl.
  apply IH. intros m' Hm'. apply Hnone. by right.
Qed.

(** The row of a ticker in the ranking, before the display columns are
    selected. *)
#[local] Abbreviation ranked_row labels :=
  (fun mq : gmap string json * Q =>
     <[VOLUME_COLUMN := Float mq.2]> (Pandas.row_of_dict labels mq.1)).

Lemma dropna_numeric (labels : gset string)
    (dicts : list (gmap string json)) :
  List.filter
    (fun r => negb (Pandas.is_na (Pandas.at_label VOLUME_COLUMN r)))
    ((fun r =>
        <[VOLUME_COLUMN :=
            Pandas.to_numeric_cell (Pandas.at_label VOLUME_COLUMN r)]> r)
       <$> (Pandas.row_of_dict labels <$> dicts))
  = ranked_row labels <$> omap Spec.numeric_turnover dicts.
Proof.
  induction dicts as [|m dicts IH]; [done|].
  rewrite !fmap_cons. cbn [List.filter omap list_omap].
  rewrite IH. unfold Pandas.at_label at 1.
  rewrite lookup_insert_eq. cbn [default from_option].
  rewrite row_of_dict_at.
  assert (Hm : Spec.numeric_turnover m
               = match Pandas.to_numeric_cell
                         (Spec.ticker_cell m VOLUME_COLUMN) with
                 | Float q => Some (m, q)
                 | _ => None
                 end) by done.
  rewrite Hm.
  by destruct (to_numeric_cell_cases (Spec.ticker_cell m VOLUME_COLUMN))
    as [->|[q ->]].
Qed.

Lemma ranked_rows_top (n : Z) (dicts : list (gmap string json)) :
  0 <= n ->
  exists ranked,
    ranked ≡ₚ omap Spec.numeric_turnover dicts
    /\ StronglySorted (fun a b => (b.2 <= a.2)%Q) ranked
    /\ Spec.ranked_rows n dicts
       = ranked_row (⋃ (dom <$> dicts)) <$> take (Z.to_nat n) ranked.
Proof.
  intros Hn. unfold Spec.ranked_rows, Pandas.head.
  replace (0 <=? n) with true by lia.
  cbn [rows Pandas.sort_values_desc Pandas.dropna columns].
  rewrite dropna_numeric.
  set (labels := (⋃ (dom <$> dicts) : gset string)).
  set (kept := omap Spec.numeric_turnover dicts).
  pose proof (merge_sort_Permutation (Pandas.row_ge VOLUME_COLUMN)
                (ranked_row labels <$> kept)) as Hperm.
  pose proof (StronglySorted_merge_sort (Pandas.row_ge VOLUME_COLUMN)
                (ranked_row labels <$> kept)) as Hsorted.
  destruct (Permutation_map_inv (ranked_row labels) kept Hperm)
    as (ranked & Hranked & Hkept).
  change (map (ranked_row labels) ranked)
    with (ranked_row labels <$> ranked) in Hranked.
  rewrite Hranked in Hsorted |- *.
  exists ranked. split; [done|]. split; [|by rewrite fmap_take].
  clear Hranked Hperm Hkept.
  induction ranked as [|a ranked IH]; [constructor|].
  rewrite fmap_cons in Hsorted. inversion Hsorted as [|? ? Hrest Hall]; subst.
  constructor; [by apply IH|].
  rewrite Forall_fmap in Hall.
  eapply Forall_impl; [exact Hall|].
  intros b. unfold Pandas.row_ge, Pandas.at_label. simpl.
  by rewrite !lookup_insert_eq.
Qed.

(** C7 (as the code has it).  Let [tickers] be the list [get_all_tickers]
    fetched and [n] the number of rows asked for, [0 <= n].  When every ticker is a JSON
    object, [get_top_n_symbols_by_volume] returns a frame.  Of every
    frame [df] it returns:
    - each row is the row of a fetched ticker whose turnover is
      numeric: it holds that number under [turnover_usd] and the
      ticker's own cells under the other columns, so a ticker with a
      non-numeric turnover gives no row;
    - there are at most [n] rows;
    - each row's turnover is at least that of the row after it;
    - the columns are display columns, in the order of the display
      list, each of them a key of some ticker, and when the tickers are
      objects of which one has a turnover, every display column that
      is a key of some ticker is there;
    - [df] is the empty frame when no ticker was fetched or none holds
      a turnover;
    - when the tickers are objects, the rows are the top [n]: the
      tickers with a numeric turnover can be put in an order of
      non-increasing turnover of which the rows of [df] are, one for
      one, the first [n]; so there are [n] rows, or as many as there
      are tickers with a numeric turnover when these are fewer. *)
Theorem top_n_ranking_contract (get : request -> outcome Response)
    (n : Z) (tickers : list json) :
  Fetchers.get_all_tickers get BASE_URL = Returned tickers ->
  0 <= n ->
  (Forall (fun t => exists m, t = JObj m) tickers ->
   exists df, get_top_n_symbols_by_volume get n = Returned df)
  /\ forall df,
       get_top_n_symbols_by_volume get n = Returned df ->
       (forall r, r ∈ rows df ->
          exists m q,
            JObj m ∈ tickers
            /\ Pandas.to_numeric_cell (Spec.ticker_cell m VOLUME_COLUMN)
               = Float q
            /\ r !! VOLUME_COLUMN = Some (Float q)
            /\ (forall c, c ∈ columns df -> c <> VOLUME_COLUMN ->
                   r !! c = Some (Spec.ticker_cell m c))
            /\ (forall c, c ∉ columns df -> r !! c = None))
       /\ Z.of_nat (length (rows df)) <= n
       /\ (forall i r1 r2,
             rows df !! i = Some r1 -> rows df !! S i = Some r2 ->
             (Pandas.number (Pandas.at_label VOLUME_COLUMN r2)
              <= Pandas.number (Pandas.at_label VOLUME_COLUMN r1))%Q)
       /\ columns df `sublist_of` desired_cols
       /\ (forall c, c ∈ columns df ->
              exists m, JObj m ∈ tickers /\ is_Some (m !! c))
       /\ (Forall (fun t => exists m, t = JObj m) tickers ->
           (exists m, JObj m ∈ tickers /\ is_Some (m !! VOLUME_COLUMN)) ->
           forall c, c ∈ desired_cols ->
             (exists m, JObj m ∈ tickers /\ is_Some (m !! c)) ->
             c ∈ columns df)
       /\ (tickers = []
           \/ (forall m, JObj m ∈ tickers -> m !! VOLUME_COLUMN = None) ->
           df = Pandas.empty)
       /\ (Forall (fun t => exists m, t = JObj m) tickers ->
           exists ranked,
             ranked ≡ₚ Spec.numeric_tickers tickers
             /\ StronglySorted (fun a b => (b.2 <= a.2)%Q) ranked
             /\ Forall2
                  (fun r mq =>
                     r !! VOLUME_COLUMN = Some (Float mq.2)
                     /\ forall c, c ∈ columns df -> c <> VOLUME_COLUMN ->
                          r !! c = Some (Spec.ticker_cell mq.1 c))
                  (rows df) (take (Z.to_nat n) ranked)
             /\ length (rows df)
                = Nat.min (Z.to_nat n)
                    (length (Spec.numeric_tickers tickers))).
Proof.
  intros Htickers Hn. split.
  { intros Hobj.
    apply (top_n_returns get n (omap Pandas.as_dict tickers)).
    rewrite Htickers. f_equal. by apply objects_as_dicts. }
  intros df Hret.
  destruct (top_n_returned get n tickers df Htickers Hret)
    as [[-> Hwhy]|(dicts & -> & Hvol & ->)].
  { (* the empty frame *)
    repeat split; simpl; try done.
    - intros r Hr. by apply elem_of_nil in Hr.
    - apply sublist_nil_l.
    - intros c Hc. by apply elem_of_nil in Hc.
    - intros Hobj (m & Hm & Hsome) c _ _.
      destruct Hwhy as [->|[(t & Ht & Hnot)|Hnone]].
      + by apply elem_of_nil in Hm.
      + rewrite Forall_forall in Hobj.
        destruct (Hobj t Ht) as [m' ->]. by destruct (Hnot m').
      + rewrite (Hnone m Hm) in Hsome. by destruct Hsome.
    - intros Hobj. exists [].
      assert (Hnum : Spec.numeric_tickers tickers = []).
      { destruct Hwhy as [->|[(t & Ht & Hnot)|Hnone]]; [done| |].
        - rewrite Forall_forall in Hobj.
          destruct (Hobj t Ht) as [m' ->]. by destruct (Hnot m').
        - rewrite (objects_as_dicts tickers Hobj) in Hnone |- *.
          apply numeric_tickers_without_turnover.
          intros m Hm. apply Hnone. by apply list_elem_of_fmap_2. }
      rewrite Hnum, take_nil. repeat split; try constructor.
      by rewrite Nat.min_0_r. }
  (* the ranked frame *)
  set (labels := (⋃ (dom <$> dicts) : gset string)) in *.
  set (existing :=
         List.filter (fun col => bool_decide (col ∈ elements labels))
           desired_cols).
  assert (Hvolcol : VOLUME_COLUMN ∈ existing).
  { apply existing_cols_spec. split; [|done].
    unfold desired_cols. set_solver. }
  assert (Hat : forall r : gmap string cell,
            Pandas.at_label VOLUME_COLUMN
              (filter (fun kv => kv.1 ∈ existing) r)
            = Pandas.at_label VOLUME_COLUMN r).
  { intros r. unfold Pandas.at_label. rewrite map_lookup_filter.
    destruct (r !! VOLUME_COLUMN); simpl; [|done].
    by rewrite option_guard_True. }
  simpl. repeat split.
  - intros r Hr. apply list_elem_of_fmap in Hr as (r1 & -> & Hr1).
    apply ranked_rows_origin in Hr1 as (m & q & Hm & Hq & ->).
    exists m, q. repeat split.
    + by apply list_elem_of_fmap_2.
    + done.
    + rewrite map_lookup_filter, lookup_insert_eq. simpl.
      by rewrite option_guard_True.
    + intros c Hc Hne. rewrite map_lookup_filter.
      rewrite lookup_insert_ne by done.
      rewrite row_of_dict_lookup.
      2:{ by apply existing_cols_spec in Hc as [_ ?]. }
      simpl. by rewrite option_guard_True.
    + intros c Hc. rewrite map_lookup_filter.
      destruct (_ !! c); simpl; [|done].
      by rewrite option_guard_False.
  - rewrite length_fmap. by apply ranked_rows_length.
  - intros i r1 r2 H1 H2.
    apply list_lookup_fmap_Some in H1 as (r1' & -> & H1).
    apply list_lookup_fmap_Some in H2 as (r2' & -> & H2).
    rewrite !Hat.
    apply (StronglySorted_adjacent (Pandas.row_ge VOLUME_COLUMN)
             _ i r1' r2' (ranked_rows_sorted n dicts) H1 H2).
  - apply filter_is_sublist.
  - intros c Hc. apply existing_cols_spec in Hc as [_ Hc].
    apply label_of_some_ticker in Hc as (m & Hm & Hsome).
    exists m. split; [by apply list_elem_of_fmap_2|done].
  - intros _ _ c Hc (m & Hm & Hsome).
    apply existing_cols_spec. split; [done|].
    apply label_of_some_ticker. exists m. split; [|done].
    by apply list_elem_of_fmap in Hm as (m' & [= <-] & ?).
  - intros [Hnil|Hnone].
    + destruct dicts; [|done].
      apply label_of_some_ticker in Hvol as (m & Hm & _).
      by apply elem_of_nil in Hm.
    + apply label_of_some_ticker in Hvol as (m & Hm & Hsome).
      rewrite (Hnone m) in Hsome; [by destruct Hsome|].
      by apply list_elem_of_fmap_2.
  - intros _.
    destruct (ranked_rows_top n dicts Hn)
      as (ranked & Hperm & Hsorted & Hrows).
    exists ranked. rewrite numeric_tickers_dicts.
    split; [done|]. split; [done|]. split.
    + rewrite Hrows, <- list_fmap_compose.
      apply Forall2_fmap_l, Forall_Forall2_diag, Forall_forall.
      intros [m q] _. simpl. split.
      * rewrite map_lookup_filter, lookup_insert_eq. simpl.
        by rewrite option_guard_True.
      * intros c Hc Hne. rewrite map_lookup_filter.
        rewrite lookup_insert_ne by done.
        rewrite row_of_dict_lookup.
        2:{ by apply existing_cols_spec in Hc as [_ ?]. }
        simpl. by rewrite option_guard_True.
    + rewrite length_fmap, Hrows, length_fmap, length_take.
      by rewrite Hperm.
Qed.

End RankingProperties.

Section ExchangeFacts.

Import Candles Example.

Variables (cap : nat) (candles : list json).
Variables (symbol resolution : string) (overall_end limit : Z).

Lemma exchange_page (i : nat) (c : Z) (page : list json) :
  Spec.page_of
    (exchange cap candles i
       (candles_request symbol resolution overall_end limit c)) = Some page ->
  page =
  take cap
    (List.filter
       (fun k => match candle_time k with
                 | Some t => (c <=? t) && (t <=? overall_end)
                 | None => false
                 end)
       candles).
Proof.
  unfold exchange, param. simpl.
  unfold Spec.page_of, raise_for_status. simpl.
  rewrite result_list_object, lookup_singleton_eq.
  by intros [= <-].
Qed.

Lemma exchange_page_fresh (i : nat) (c : Z) (page : list json) (t : Z) :
  Spec.page_of
    (exchange cap candles i
       (candles_request symbol resolution overall_end limit c)) = Some page ->
  page <> [] ->
  Spec.last_time page = Some t ->
  c <= t.
Proof.
  intros Hpage%exchange_page Hne Ht.
  assert (Hin : List.last page JNull ∈ page).
  { destruct page as [|k page]; [done|].
    apply list_elem_of_In.
    destruct (exists_last (l := k :: page)) as (front & x & E); [done|].
    rewrite E, last_last. apply in_app_iff. right. by left. }
  rewrite Hpage in Hin at 2.
  eapply elem_of_sublist in Hin; [|apply sublist_take].
  apply list_elem_of_In, List.filter_In in Hin as [_ Hwin].
  unfold Spec.last_time in Ht. unfold candle_time in Hwin.
  destruct (py_getitem _ _); [|done].
  rewrite Ht in Hwin. lia.
Qed.

End ExchangeFacts.

(* ===================================================================== *)
(** * The properties at the concrete exchange *)
(* ===================================================================== *)

Lemma short_page_witness :
  Candles.pagination_loop
    (Example.exchange 4 (take 2 Example.daily_candles)) "BTCUSD" "1d"
    (Example.DAY0 + 864000) 4 1
    (Candles.mkstate Example.DAY0 [] []) =
  Some (Candles.mkstate (Example.DAY0 + 86400 + 1)
          (take 2 Example.daily_candles)
          [Candles.candles_request "BTCUSD" "1d" (Example.DAY0 + 864000) 4
             Example.DAY0]).
Proof.
  apply (short_page_ends_loop
           (Example.exchange 4 (take 2 Example.daily_candles)) "BTCUSD" "1d"
           (Example.DAY0 + 864000) 4 0
           (Candles.mkstate Example.DAY0 [] [])
           (take 2 Example.daily_candles) (Example.DAY0 + 86400)).
  - vm_compute. discriminate.
  - vm_compute. reflexivity.
  - discriminate.
  - vm_compute. reflexivity.
  - vm_compute. reflexivity.
  - vm_compute. reflexivity.
Defined.


Lemma nothing_gathered_witness :
  Candles.get_ohlc_data_paginated (H := Example.strict_pandas) 1
    (Example.exchange 4 []) "BTCUSD" "1d"
    Example.window_start Example.window_end 4
  = Some (Returned (mkDataFrame [] [])).
Proof.
  apply (proj1 (proj2 (nothing_gathered_gives_bare_frame
                         (H := Example.strict_pandas) 0
                         (Example.exchange 4 []) "BTCUSD" "1d"
                         Example.window_start Example.window_end 4))).
  - vm_compute. discriminate.
  - vm_compute. reflexivity.
Defined.

(** C6 (as stated) fails where it says the empty table keeps to the
    fixed columns: after an empty first page the frame returned has no
    column at all, [time] is not a label of it. *)
Lemma empty_frame_lacks_columns :
  exists df,
    Candles.get_ohlc_data_paginated (H := Example.strict_pandas) 1
      (Example.exchange 4 []) "BTCUSD" "1d"
      Example.window_start Example.window_end 4 = Some (Returned df)
    /\ rows df = []
    /\ columns df <> Candles.OHLC_COLUMNS
    /\ Pandas.getcol df "time" = Raised KeyError.
Proof.
  exists (mkDataFrame [] []).
  split; [vm_compute; reflexivity|].
  split; [reflexivity|]. split; [discriminate|reflexivity].
Qed.

Lemma ten_days_witness :
  exists st df,
    Candles.fetch_pages 5 (Example.exchange 4 Example.daily_candles)
      "BTCUSD" "1d" Example.window_start Example.window_end 4 = Some st
    /\ length (Candles.calls st) = 3%nat
    /\ Spec.page_sizes (Example.exchange 4 Example.daily_candles)
         (Candles.calls st) = [4; 4; 2]%nat
    /\ Candles.get_ohlc_data_paginated (H := Example.strict_pandas) 5
         (Example.exchange 4 Example.daily_candles) "BTCUSD" "1d"
         Example.window_start Example.window_end 4 = Some (Returned df)
    /\ length (rows df) = 10%nat
    /\ Pandas.time_of "time" <$> rows df
       = (fun t => Some (t * 1000000000)) <$> Example.ten_days.
Proof.
  apply (proj2 (ten_days_in_three_calls (H := Example.strict_pandas)) 5%nat).
  lia.
Defined.

Lemma pagination_terminates_witness :
  (forall st1 st2,
     Candles.iteration (Example.exchange 4 Example.daily_candles)
       "BTCUSD" "1d" (Datetime.int_timestamp Example.window_end) 4 st1
     = (st2, Candles.Continue) ->
     Candles.current_chunk_start_timestamp st1
       < Candles.current_chunk_start_timestamp st2
       <= Datetime.int_timestamp Example.window_end)
  /\ exists st',
       forall fuel,
         (Z.to_nat (Datetime.int_timestamp Example.window_end
                    - Example.DAY0 + 1) <= fuel)%nat ->
         Candles.pagination_loop (Example.exchange 4 Example.daily_candles)
           "BTCUSD" "1d" (Datetime.int_timestamp Example.window_end) 4 fuel
           (Candles.mkstate Example.DAY0 [] []) = Some st'.
Proof.
  apply (pagination_terminates (Example.exchange 4 Example.daily_candles)
           "BTCUSD" "1d" (Datetime.int_timestamp Example.window_end) 4
           (Candles.mkstate Example.DAY0 [] [])).
  - intros i c page Hpage. apply exchange_page in Hpage as ->.
    rewrite length_take. lia.
  - intros i c page t Hpage Hfull Ht.
    apply (exchange_page_fresh _ _ _ _ _ _ i c page t Hpage); [|exact Ht].
    intros ->. simpl in Hfull. lia.
Defined.

Lemma table_ascending_witness :
  exists ts,
    Pandas.time_of "time" <$> rows Example.ten_day_table = Some <$> ts
    /\ StronglySorted Z.lt ts
    /\ NoDup ts
    /\ Forall (fun t =>
                 Datetime.us_since_epoch Example.window_start * 1000 <= t
                 <= Datetime.us_since_epoch Example.window_end * 1000) ts.
Proof.
  apply (table_ascending_in_window (H := Example.strict_pandas) 3
           (Example.exchange 4 Example.daily_candles) "BTCUSD" "1d"
           Example.window_start Example.window_end 4 Example.ten_day_table).
  vm_compute. reflexivity.
Defined.

Lemma top_n_ranking_witness :
  exists df,
    Ranking.get_top_n_symbols_by_volume (H := Example.strict_pandas)
      Example.ticker_feed 2 = Returned df
    /\ length (rows df) = 2%nat
    /\ Z.of_nat (length (rows df)) <= 2.
Proof.
  destruct (top_n_ranking_contract (H := Example.strict_pandas)
              Example.ticker_feed 2 Example.three_tickers eq_refl
              ltac:(lia))
    as [Hreturns Hfacts].
  assert (Hobj : Forall (fun t => exists m, t = JObj m)
                   Example.three_tickers)
    by (repeat constructor; eexists; reflexivity).
  destruct (Hreturns Hobj) as [df Hdf].
  exists df. split; [exact Hdf|].
  destruct (Hfacts df Hdf) as (_ & Hmost & _ & _ & _ & _ & _ & Htop).
  destruct (Htop Hobj) as (ranked & _ & _ & _ & Hcount).
  split; [|exact Hmost].
  rewrite Hcount. reflexivity.
Defined.

(** C7 (as stated) fails for a negative [n]: [head(-1)] keeps all rows
    but the last, so of the two tickers with a numeric turnover one row
    is returned, which is more than [n]. *)
Lemma negative_n_returns_rows :
  exists df,
    Ranking.get_top_n_symbols_by_volume (H := Example.strict_pandas)
      Example.ticker_feed (-1) = Returned df
    /\ length (rows df) = 1%nat
    /\ ~ Z.of_nat (length (rows df)) <= -1.
Proof.
  eexists. split; [vm_compute; reflexivity|].
  split; [reflexivity|]. simpl. lia.
Qed.


(* ===================================================================== *)
(** * Further properties of the pagination loop *)
(* ===================================================================== *)

Section LoopRuns.

Import Candles.

Variable api : nat -> request -> outcome Response.
Variables symbol resolution : string.
Variables overall_end_timestamp limit_per_request : Z.

#[local] Abbreviation request_at st :=
  (candles_request symbol resolution overall_end_timestamp
     limit_per_request (current_chunk_start_timestamp st)).
#[local] Abbreviation answer_at st := (api (length (calls st)) (request_at st)).
#[local] Abbreviation logged st := (calls st ++ [request_at st])%list.
#[local] Abbreviation pagination_loop :=
  (pagination_loop api symbol resolution overall_end_timestamp
     limit_per_request).
#[local] Abbreviation pass :=
  (Spec.pass api symbol resolution overall_end_timestamp limit_per_request).

(** A pass either makes no call and leaves the state as it is, or makes
    the one call for its cursor and appends the page it reads, if any. *)
Lemma pass_effect (st st' : loop_state) (c : control) :
  pass st = (st', c) ->
  (st' = st /\ c = Break
   /\ Datetime.fromtimestamp (current_chunk_start_timestamp st)
      <> Returned tt)
  \/ (Datetime.fromtimestamp (current_chunk_start_timestamp st) = Returned tt
      /\ calls st' = logged st
      /\ all_candles st'
         = (all_candles st ++ default [] (Spec.page_of (answer_at st)))%list).
Proof.
  unfold Spec.pass.
  destruct (Datetime.fromtimestamp _) as [[]|e] eqn:Edate.
  2:{ intros [= <- <-]. left. by repeat split. }
  intros Hpass. right. split; [done|].
  destruct (Spec.page_of (answer_at st)) as [[|k page]|]; simpl.
  1,3: injection Hpass as <- _; simpl; by rewrite ?app_nil_r.
  destruct (Spec.last_time (k :: page)) as [t|].
  2:{ by injection Hpass as <- _. }
  destruct (overall_end_timestamp <=? t); by injection Hpass as <- _.
Qed.

Lemma fromtimestamp_bounds (t : Z) :
  Datetime.fromtimestamp t = Returned tt <->
  Datetime.MIN_TIMESTAMP <= t <= Datetime.MAX_TIMESTAMP.
Proof.
  unfold Datetime.fromtimestamp.
  destruct (Z.leb_spec Datetime.MIN_TIMESTAMP t),
           (Z.leb_spec t Datetime.MAX_TIMESTAMP); simpl;
    split; (done || lia).
Qed.

(** What a run of the loop adds to the state. *)
Lemma loop_run (fuel : nat) (st st' : loop_state) :
  pagination_loop fuel st = Some st' ->
  exists new,
    calls st' = (calls st ++ new)%list
    /\ Forall
         (fun req =>
            exists c,
              req = candles_request symbol resolution overall_end_timestamp
                      limit_per_request c
              /\ c <= overall_end_timestamp
              /\ Datetime.MIN_TIMESTAMP <= c <= Datetime.MAX_TIMESTAMP)
         new
    /\ all_candles st'
       = (all_candles st
          ++ concat
               (imap (fun i req =>
                        default [] (Spec.page_of
                                      (api (length (calls st) + i) req)))
                     new))%list.
Proof.
  revert st. induction fuel as [|fuel IH]; intros st.
  - simpl. destruct (_ <=? _); [done|]. intros [= <-].
    exists []. simpl. by rewrite !app_nil_r.
  - destruct (Z.lt_ge_cases overall_end_timestamp
                (current_chunk_start_timestamp st)) as [Hgt|Hle].
    { rewrite loop_done by done. intros [= <-].
      exists []. simpl. by rewrite !app_nil_r. }
    rewrite loop_step by done.
    destruct (pass st) as [st1 c] eqn:Epass.
    destruct (pass_effect _ _ _ Epass)
      as [(-> & -> & _)|(Hdate & Hcalls & Hcandles)].
    { intros [= <-]. exists []. simpl. by rewrite !app_nil_r. }
    assert (Hreq : exists c0,
               request_at st
               = candles_request symbol resolution overall_end_timestamp
                   limit_per_request c0
               /\ c0 <= overall_end_timestamp
               /\ Datetime.MIN_TIMESTAMP <= c0 <= Datetime.MAX_TIMESTAMP).
    { eexists. split; [reflexivity|]. split; [lia|].
      by apply fromtimestamp_bounds. }
    destruct c.
    + intros Hloop. destruct (IH _ Hloop) as (new & Hlog & Hreqs & Hall).
      exists (request_at st :: new). split; [|split].
      * rewrite Hlog, Hcalls. by rewrite <- app_assoc.
      * by constructor.
      * rewrite Hall, Hcandles, imap_cons, concat_cons, <- app_assoc.
        rewrite Nat.add_0_r. do 3 f_equal.
        apply imap_ext. intros i req _. simpl.
        rewrite Hcalls, length_app. simpl. do 3 f_equal. lia.
    + intros [= <-]. exists [request_at st]. split; [done|]. split.
      * by constructor.
      * rewrite Hcandles. simpl. by rewrite Nat.add_0_r, app_nil_r.
Qed.

(** Every call the loop makes is a call of the candles endpoint for the
    same symbol, resolution, end and limit; its start is the cursor of
    its pass, which is a date and is not after the end. *)
Theorem loop_calls_stay_in_range (fuel : nat) (st st' : loop_state) :
  pagination_loop fuel st = Some st' ->
  exists new,
    calls st' = (calls st ++ new)%list
    /\ Forall
         (fun req =>
            exists c,
              req = candles_request symbol resolution overall_end_timestamp
                      limit_per_request c
              /\ c <= overall_end_timestamp
              /\ Datetime.MIN_TIMESTAMP <= c <= Datetime.MAX_TIMESTAMP)
         new.
Proof.
  intros Hloop. destruct (loop_run _ _ _ Hloop) as (new & ? & ? & _).
  by exists new.
Qed.

(** The candles the loop has gathered when it ends are those it had,
    followed by the pages of the calls it made, in the order of the
    calls: no candle is dropped, reordered or added. *)
Theorem loop_gathers_its_pages (fuel : nat) (st st' : loop_state) :
  pagination_loop fuel st = Some st' ->
  exists new,
    calls st' = (calls st ++ new)%list
    /\ all_candles st'
       = (all_candles st
          ++ concat
               (imap (fun i req =>
                        default [] (Spec.page_of
                                      (api (length (calls st) + i) req)))
                     new))%list.
Proof.
  intros Hloop. destruct (loop_run _ _ _ Hloop) as (new & ? & _ & ?).
  by exists new.
Qed.

(** A pass whose call fails, whose answer is not an envelope or whose
    page is empty ends the loop: the candles gathered so far are kept
    as they are, and the call is the last one. *)
Theorem failed_fetch_keeps_candles (fuel : nat) (st : loop_state) :
  current_chunk_start_timestamp st <= overall_end_timestamp ->
  Datetime.fromtimestamp (current_chunk_start_timestamp st) = Returned tt ->
  Spec.page_of (answer_at st) = None \/ Spec.page_of (answer_at st) = Some [] ->
  pagination_loop (S fuel) st =
  Some (mkstate (current_chunk_start_timestamp st) (all_candles st)
          (logged st)).
Proof.
  intros Hle Hdate Hpage. rewrite loop_step by done.
  unfold Spec.pass. rewrite Hdate. by destruct Hpage as [-> | ->].
Qed.

(** A pass that reads a page whose last timestamp has reached the end
    ends the loop with the page appended, whatever the size of the
    page; the cursor stays where it was. *)
Theorem page_at_end_ends_loop
    (fuel : nat) (st : loop_state) (page : list json) (t : Z) :
  current_chunk_start_timestamp st <= overall_end_timestamp ->
  Datetime.fromtimestamp (current_chunk_start_timestamp st) = Returned tt ->
  Spec.page_of (answer_at st) = Some page ->
  Spec.last_time page = Some t ->
  overall_end_timestamp <= t ->
  pagination_loop (S fuel) st =
  Some (mkstate (current_chunk_start_timestamp st) (all_candles st ++ page)
          (logged st)).
Proof.
  intros Hle Hdate Hpage Ht Hend. rewrite loop_step by done.
  unfold Spec.pass. rewrite Hdate, Hpage.
  destruct page as [|k page]; [discriminate Ht|]. rewrite Ht.
  by replace (overall_end_timestamp <=? t) with true by lia.
Qed.

(** A cursor that is not the timestamp of a date (it lies before the
    year 1 or after the year 9999) ends the loop before any call: the
    state is returned as it is. *)
Theorem undatable_cursor_makes_no_call (fuel : nat) (st : loop_state) :
  current_chunk_start_timestamp st < Datetime.MIN_TIMESTAMP
  \/ Datetime.MAX_TIMESTAMP < current_chunk_start_timestamp st ->
  pagination_loop (S fuel) st = Some st.
Proof.
  intros Hout.
  destruct (Z.lt_ge_cases overall_end_timestamp
              (current_chunk_start_timestamp st)) as [Hgt|Hle].
  { by apply loop_done. }
  rewrite loop_step by done. unfold Spec.pass.
  destruct (Datetime.fromtimestamp _) as [[]|e] eqn:Edate; [|done].
  apply fromtimestamp_bounds in Edate. lia.
Qed.

End LoopRuns.

(** When the end of the range is before its start (to the second) the
    function makes no call and returns [pd.DataFrame()]. *)
Theorem inverted_range_gives_empty_frame `{PandasOracle} (fuel : nat)
    (api : nat -> request -> outcome Response) (symbol resolution : string)
    (start_time_dt end_time_dt : datetime) (limit_per_request : Z) :
  Datetime.int_timestamp end_time_dt < Datetime.int_timestamp start_time_dt ->
  Candles.fetch_pages fuel api symbol resolution start_time_dt end_time_dt
    limit_per_request
  = Some (Candles.mkstate (Datetime.int_timestamp start_time_dt) [] [])
  /\ Candles.get_ohlc_data_paginated fuel api symbol resolution
       start_time_dt end_time_dt limit_per_request
     = Some (Returned Pandas.empty).
Proof.
  intros Hlt.
  assert (Hpages :
            Candles.fetch_pages fuel api symbol resolution start_time_dt
              end_time_dt limit_per_request
            = Some (Candles.mkstate (Datetime.int_timestamp start_time_dt)
                      [] [])).
  { unfold Candles.fetch_pages. by apply loop_done. }
  split; [done|].
  unfold Candles.get_ohlc_data_paginated. by rewrite Hpages.
Qed.

Lemma loop_calls_witness :
  exists st',
    Candles.pagination_loop (Example.exchange 4 Example.daily_candles)
      "BTCUSD" "1d" (Datetime.int_timestamp Example.window_end) 4 3
      (Candles.mkstate Example.DAY0 [] []) = Some st'
    /\ exists new,
         Candles.calls st' = ([] ++ new)%list
         /\ Forall
              (fun req =>
                 exists c,
                   req = Candles.candles_request "BTCUSD" "1d"
                           (Datetime.int_timestamp Example.window_end) 4 c
                   /\ c <= Datetime.int_timestamp Example.window_end
                   /\ Datetime.MIN_TIMESTAMP <= c <= Datetime.MAX_TIMESTAMP)
              new.
Proof.
  eexists. split; [vm_compute; reflexivity|].
  apply (loop_calls_stay_in_range (Example.exchange 4 Example.daily_candles)
           "BTCUSD" "1d" (Datetime.int_timestamp Example.window_end) 4 3
           (Candles.mkstate Example.DAY0 [] [])).
  vm_compute. reflexivity.
Defined.

Lemma loop_pages_witness :
  exists st',
    Candles.pagination_loop (Example.exchange 4 Example.daily_candles)
      "BTCUSD" "1d" (Datetime.int_timestamp Example.window_end) 4 3
      (Candles.mkstate Example.DAY0 [] []) = Some st'
    /\ exists new,
         Candles.calls st' = ([] ++ new)%list
         /\ Candles.all_candles st'
            = ([] ++ concat
                 (imap (fun i req =>
                          default []
                            (Spec.page_of
                               (Example.exchange 4 Example.daily_candles
                                  (0 + i) req)))
                    new))%list.
Proof.
  eexists. split; [vm_compute; reflexivity|].
  apply (loop_gathers_its_pages (Example.exchange 4 Example.daily_candles)
           "BTCUSD" "1d" (Datetime.int_timestamp Example.window_end) 4 3
           (Candles.mkstate Example.DAY0 [] [])).
  vm_compute. reflexivity.
Defined.

Lemma failed_fetch_witness :
  Candles.pagination_loop (fun _ _ => Raised Timeout) "BTCUSD" "1d"
    (Example.DAY0 + 864000) 4 1
    (Candles.mkstate Example.DAY0 [Example.candle Example.DAY0] [])
  = Some (Candles.mkstate Example.DAY0 [Example.candle Example.DAY0]
            [Candles.candles_request "BTCUSD" "1d" (Example.DAY0 + 864000) 4
               Example.DAY0]).
Proof.
  apply (failed_fetch_keeps_candles (fun _ _ => Raised Timeout) "BTCUSD" "1d"
           (Example.DAY0 + 864000) 4 0
           (Candles.mkstate Example.DAY0 [Example.candle Example.DAY0] [])).
  - vm_compute. discriminate.
  - vm_compute. reflexivity.
  - left. vm_compute. reflexivity.
Defined.

Lemma page_at_end_witness :
  Candles.pagination_loop
    (Example.exchange 4 (take 2 Example.daily_candles)) "BTCUSD" "1d"
    (Example.DAY0 + 86400) 2 1
    (Candles.mkstate Example.DAY0 [] [])
  = Some (Candles.mkstate Example.DAY0 ([] ++ take 2 Example.daily_candles)
            [Candles.candles_request "BTCUSD" "1d" (Example.DAY0 + 86400) 2
               Example.DAY0]).
Proof.
  apply (page_at_end_ends_loop
           (Example.exchange 4 (take 2 Example.daily_candles)) "BTCUSD" "1d"
           (Example.DAY0 + 86400) 2 0
           (Candles.mkstate Example.DAY0 [] [])
           (take 2 Example.daily_candles) (Example.DAY0 + 86400)).
  - vm_compute. discriminate.
  - vm_compute. reflexivity.
  - vm_compute. reflexivity.
  - vm_compute. reflexivity.
  - lia.
Defined.

Lemma undatable_cursor_witness :
  Candles.pagination_loop (Example.exchange 4 Example.daily_candles)
    "BTCUSD" "1d" (Datetime.MAX_TIMESTAMP + 10) 4 1
    (Candles.mkstate (Datetime.MAX_TIMESTAMP + 1) Example.daily_candles [])
  = Some (Candles.mkstate (Datetime.MAX_TIMESTAMP + 1)
            Example.daily_candles []).
Proof.
  apply (undatable_cursor_makes_no_call
           (Example.exchange 4 Example.daily_candles) "BTCUSD" "1d"
           (Datetime.MAX_TIMESTAMP + 10) 4 0
           (Candles.mkstate (Datetime.MAX_TIMESTAMP + 1)
              Example.daily_candles [])).
  right. simpl. lia.
Defined.

Lemma inverted_range_witness :
  Candles.fetch_pages 0 (Example.exchange 4 Example.daily_candles)
    "BTCUSD" "1d" Example.window_end Example.window_start 4
  = Some (Candles.mkstate (Datetime.int_timestamp Example.window_end) [] [])
  /\ @Candles.get_ohlc_data_paginated Example.strict_pandas 0
       (Example.exchange 4 Example.daily_candles) "BTCUSD" "1d"
       Example.window_end Example.window_start 4
     = Some (Returned Pandas.empty).
Proof.
  apply (@inverted_range_gives_empty_frame Example.strict_pandas 0
           (Example.exchange 4 Example.daily_candles) "BTCUSD" "1d"
           Example.window_end Example.window_start 4).
  vm_compute. reflexivity.
Defined.


(* ===================================================================== *)
(** * Further properties of the assembled table *)
(* ===================================================================== *)

Section KeepFirst.

Context {A K : Type} `{EqDecision K}.
Variable key : A -> K.

(** Every key of the list is a key already seen or the key of a row
    that is kept. *)
Lemma keep_first_complete (l : list A) (seen : list K) (x : A) :
  x ∈ l ->
  key x ∈ seen \/ key x ∈ key <$> Pandas.keep_first key seen l.
Proof.
  revert seen. induction l as [|y l IH]; intros seen Hx.
  - by apply elem_of_nil in Hx.
  - simpl. apply elem_of_cons in Hx as [->|Hx].
    + destruct (decide (key y ∈ seen)); [by left|].
      right. simpl. left.
    + destruct (decide (key y ∈ seen)) as [Hin|Hout].
      * by apply IH.
      * destruct (IH (key y :: seen) Hx) as [Hseen|Hkept].
        -- apply elem_of_cons in Hseen as [->|Hseen]; [|by left].
           right. simpl. left.
        -- right. simpl. by right.
Qed.

(** A row that is kept is the first row of the list with its key. *)
Lemma keep_first_is_first (l : list A) (seen : list K) (x : A) :
  x ∈ Pandas.keep_first key seen l ->
  exists i,
    l !! i = Some x
    /\ forall j y, (j < i)%nat -> l !! j = Some y -> key y <> key x.
Proof.
  revert seen. induction l as [|y l IH]; intros seen Hx; simpl in Hx.
  - by apply elem_of_nil in Hx.
  - destruct (decide (key y ∈ seen)) as [Hin|Hout].
    + destruct (IH seen Hx) as (i & Hi & Hfirst).
      exists (S i). split; [done|].
      intros [|j] z Hj Hz; simpl in Hz.
      * injection Hz as <-. intros Heq.
        destruct (keep_first_spec key l seen) as (_ & Hall & _).
        rewrite Forall_forall in Hall. apply (Hall x Hx). by rewrite <- Heq.
      * apply (Hfirst j); [lia|done].
    + apply elem_of_cons in Hx as [->|Hx].
      * exists 0%nat. split; [done|]. intros j z Hj. lia.
      * destruct (IH (key y :: seen) Hx) as (i & Hi & Hfirst).
        exists (S i). split; [done|].
        intros [|j] z Hj Hz; simpl in Hz.
        -- injection Hz as <-. intros Heq.
           destruct (keep_first_spec key l (key y :: seen)) as (_ & Hall & _).
           rewrite Forall_forall in Hall. apply (Hall x Hx).
           rewrite <- Heq. left.
        -- apply (Hfirst j); [lia|done].
Qed.

End KeepFirst.

Section TableContents.

Context `{PandasOracle}.

Lemma mapM_outcome_Forall2 {A B} (f : A -> outcome B) (l : list A)
    (k : list B) :
  mapM f l = Returned k -> Forall2 (fun x y => f x = Returned y) l k.
Proof.
  revert k. induction l as [|x l IH]; intros k; simpl.
  - intros [= <-]. constructor.
  - destruct (f x) as [y|e] eqn:Ey; simpl; [|done].
    destruct (mapM f l) as [k'|e]; simpl; [|done].
    intros [= <-]. constructor; [done|]. by apply IH.
Qed.

(** The row of a candle once its [time] is converted. *)
#[local] Abbreviation timed_row labels :=
  (fun (m : gmap string json) (v : cell) =>
     <["time" := v]> (Pandas.row_of_dict labels m)).

#[local] Abbreviation window_test start_time_dt end_time_dt :=
  (fun r : gmap string cell =>
     match Pandas.time_of "time" r with
     | Some t =>
         (Datetime.us_since_epoch start_time_dt * 1000 <=? t)
         && (t <=? Datetime.us_since_epoch end_time_dt * 1000)
     | None => false
     end).

(** An assembled table, told by the candles and their converted
    times. *)
Lemma assemble_detail (candles : list json)
    (start_time_dt end_time_dt : datetime) (df : DataFrame) :
  Candles.assemble candles start_time_dt end_time_dt = Returned df ->
  exists dicts converted,
    candles = JObj <$> dicts
    /\ Forall2
         (fun m v =>
            Pandas.to_datetime_cell (Spec.ticker_cell m "time") = Returned v)
         dicts converted
    /\ (forall c, c ∈ Candles.OHLC_COLUMNS ->
          c ∈ (⋃ (dom <$> dicts) : gset string))
    /\ df = mkDataFrame Candles.OHLC_COLUMNS
             ((fun r : gmap string cell =>
                 filter (fun kv => kv.1 ∈ Candles.OHLC_COLUMNS) r) <$>
              List.filter (window_test start_time_dt end_time_dt)
                (merge_sort (Pandas.row_le "time")
                   (Pandas.keep_first (Pandas.time_of "time") []
                      (zip_with (timed_row (⋃ (dom <$> dicts)))
                         dicts converted)))).
Proof.
  unfold Candles.assemble, Pandas.DataFrame_of.
  destruct (mapM Pandas.as_dict candles) as [dicts|] eqn:Edicts.
  2:{ destruct (irregular_frame candles); simpl; done. }
  apply mapM_as_dict in Edicts as ->.
  rewrite bind_Returned.
  set (labels := (⋃ (dom <$> dicts) : gset string)).
  unfold Pandas.getcol. simpl.
  destruct (decide ("time" ∈ elements labels)) as [Htime|]; [|done].
  rewrite bind_Returned.
  destruct (Pandas.to_datetime _) as [converted|e] eqn:Econv; [|done].
  rewrite bind_Returned. unfold Pandas.select.
  destruct (forallb _ _) eqn:Ecols; [|done].
  intros [= <-]. exists dicts, converted. split; [done|].
  split; [|split].
  - apply mapM_outcome_Forall2 in Econv.
    rewrite <- list_fmap_compose in Econv.
    apply Forall2_fmap_l in Econv.
    eapply Forall2_impl; [exact Econv|]. simpl.
    intros m v. by rewrite row_of_dict_at.
  - intros c Hc. rewrite forallb_forall in Ecols.
    apply list_elem_of_In, Ecols, bool_decide_eq_true in Hc.
    simpl in Hc. rewrite decide_True in Hc by done.
    by apply elem_of_elements in Hc.
  - simpl. by rewrite zip_with_fmap_l.
Qed.

Lemma timed_row_time (labels : gset string) (m : gmap string json) (v : cell) :
  Pandas.time_of "time" (timed_row labels m v) = Pandas.instant v.
Proof.
  unfold Pandas.time_of, Pandas.at_label. by rewrite lookup_insert_eq.
Qed.

Lemma to_datetime_cell_shape (c v : cell) :
  Pandas.to_datetime_cell c = Returned v ->
  v = NaT \/ exists t, v = Timestamp t.
Proof.
  destruct c as [[]| | | |]; simpl;
    try (intros [= <-]; eauto; fail);
    try (destruct (to_datetime_other _) as [[t|]|]; simpl;
         intros [= <-]; eauto; fail).
  destruct (_ && _); [intros [= <-]; eauto|].
  destruct (to_datetime_other _) as [[t|]|]; simpl; intros [= <-]; eauto.
Qed.

(** The instants of an assembled table are exactly the converted times
    of the gathered candles that lie in the window: each instant of the
    table is the time of some candle and lies in the window, and each
    candle time in the window is an instant of the table. *)
Theorem table_holds_window_instants (candles : list json)
    (start_time_dt end_time_dt : datetime) (df : DataFrame) (t : Z) :
  Candles.assemble candles start_time_dt end_time_dt = Returned df ->
  Some t ∈ Pandas.time_of "time" <$> rows df
  <->
  (Datetime.us_since_epoch start_time_dt * 1000 <= t
     <= Datetime.us_since_epoch end_time_dt * 1000)
  /\ exists m,
       JObj m ∈ candles
       /\ Pandas.to_datetime_cell (Spec.ticker_cell m "time")
          = Returned (Timestamp t).
Proof.
  intros Hdf.
  apply assemble_detail in Hdf
    as (dicts & converted & -> & Hconv & _ & ->).
  simpl. rewrite <- list_fmap_compose.
  set (labels := (⋃ (dom <$> dicts) : gset string)).
  set (rows0 := zip_with (timed_row labels) dicts converted).
  set (sorted := merge_sort (Pandas.row_le "time")
                   (Pandas.keep_first (Pandas.time_of "time") [] rows0)).
  assert (Hproj : forall r : gmap string cell,
            (Pandas.time_of "time"
               ∘ (fun r : gmap string cell =>
                    filter (fun kv => kv.1 ∈ Candles.OHLC_COLUMNS) r)) r
            = Pandas.time_of "time" r).
  { intros r. simpl. apply select_keeps_time.
    unfold Candles.OHLC_COLUMNS. set_solver. }
  split.
  - intros Ht. apply list_elem_of_fmap in Ht as (r & Hr & Hin).
    rewrite Hproj in Hr.
    apply list_elem_of_In, List.filter_In in Hin as [Hin Hwin].
    rewrite <- Hr in Hwin. split; [lia|].
    apply list_elem_of_In in Hin. unfold sorted in Hin.
    rewrite (merge_sort_Permutation (Pandas.row_le "time")) in Hin.
    eapply elem_of_sublist in Hin; [|apply keep_first_spec].
    apply elem_of_lookup_zip_with in Hin as (i & m & v & -> & Hm & Hv).
    rewrite timed_row_time in Hr.
    pose proof (Forall2_lookup_lr _ _ _ _ _ _ Hconv Hm Hv) as Hcell.
    exists m. split.
    + apply list_elem_of_fmap_2. apply list_elem_of_lookup. eauto.
    + rewrite Hcell. f_equal. destruct v; try done. by injection Hr as ->.
  - intros (Hwin & m & Hm & Hcell).
    apply list_elem_of_fmap in Hm as (m' & [= <-] & Hm).
    apply list_elem_of_lookup in Hm as [i Hm].
    destruct (Forall2_lookup_l _ _ _ _ _ Hconv Hm) as (v & Hv & Hcell').
    rewrite Hcell in Hcell'. injection Hcell' as <-.
    assert (Hrow : timed_row labels m (Timestamp t) ∈ rows0).
    { apply elem_of_lookup_zip_with. eauto 6. }
    destruct (keep_first_complete (Pandas.time_of "time") rows0 [] _ Hrow)
      as [Hnil|Hkept]; [by apply elem_of_nil in Hnil|].
    rewrite timed_row_time in Hkept. simpl in Hkept.
    apply list_elem_of_fmap in Hkept as (r & Hr & Hin).
    apply list_elem_of_fmap. exists r. split; [by rewrite Hproj|].
    apply list_elem_of_In, List.filter_In. split.
    + apply list_elem_of_In. unfold sorted.
      by rewrite (merge_sort_Permutation (Pandas.row_le "time")).
    + rewrite <- Hr. lia.
Qed.

(** Of the candles with the same time the table keeps the first: a row
    of the table with instant [t] holds the open, high, low, close and
    volume of the earliest gathered candle whose time converts to [t]
    ([NaN] where that candle lacks the field). *)
Theorem table_row_is_first_candle (candles : list json)
    (start_time_dt end_time_dt : datetime) (df : DataFrame)
    (r : gmap string cell) (t : Z) :
  Candles.assemble candles start_time_dt end_time_dt = Returned df ->
  r ∈ rows df ->
  Pandas.time_of "time" r = Some t ->
  exists (i : nat) (m : gmap string json),
    candles !! i = Some (JObj m)
    /\ Pandas.to_datetime_cell (Spec.ticker_cell m "time")
       = Returned (Timestamp t)
    /\ (forall (j : nat) (m' : gmap string json),
          (j < i)%nat ->
          candles !! j = Some (JObj m') ->
          Pandas.to_datetime_cell (Spec.ticker_cell m' "time")
          <> Returned (Timestamp t))
    /\ forall c, c ∈ ["open"; "high"; "low"; "close"; "volume"] ->
                 r !! c = Some (Spec.ticker_cell m c).
Proof.
  intros Hdf Hr Ht.
  apply assemble_detail in Hdf
    as (dicts & converted & -> & Hconv & Hlabels & ->).
  simpl in Hr.
  set (labels := (⋃ (dom <$> dicts) : gset string)) in *.
  apply list_elem_of_fmap in Hr as (r0 & -> & Hin).
  rewrite select_keeps_time in Ht
    by (unfold Candles.OHLC_COLUMNS; set_solver).
  apply list_elem_of_In, List.filter_In in Hin as [Hin _].
  apply list_elem_of_In in Hin.
  rewrite (merge_sort_Permutation (Pandas.row_le "time")) in Hin.
  apply keep_first_is_first in Hin as (i & Hi & Hfirst).
  apply lookup_zip_with_Some in Hi as (m & v & -> & Hm & Hv).
  rewrite timed_row_time in Ht.
  assert (v = Timestamp t) as -> by (destruct v; try done; by injection Ht as ->).
  exists i, m. repeat split.
  - by rewrite list_lookup_fmap, Hm.
  - apply (Forall2_lookup_lr _ _ _ _ _ _ Hconv Hm Hv).
  - intros j m' Hj Hm' Hcell.
    rewrite list_lookup_fmap in Hm'.
    destruct (dicts !! j) as [m''|] eqn:Hj'; [|done].
    injection Hm' as ->.
    destruct (Forall2_lookup_l _ _ _ _ _ Hconv Hj') as (v' & Hv' & Hcell').
    rewrite Hcell in Hcell'. injection Hcell' as <-.
    apply (Hfirst j (timed_row labels m' (Timestamp t))); [done| |].
    + apply lookup_zip_with_Some. eauto.
    + by rewrite !timed_row_time.
  - intros c Hc.
    assert (c ∈ Candles.OHLC_COLUMNS /\ c <> "time") as [Hcol Hne].
    { repeat (apply elem_of_cons in Hc as [->|Hc]);
        [..|by apply elem_of_nil in Hc];
        (split; [unfold Candles.OHLC_COLUMNS; repeat constructor|done]). }
    rewrite map_lookup_filter, lookup_insert_ne by done.
    rewrite row_of_dict_lookup by by apply Hlabels.
    simpl. by rewrite option_guard_True.
Qed.

(** A table is returned for gathered candles only when every candle is
    a JSON object and each of the six column names is a field of some
    candle; otherwise the statements after the loop raise. *)
Theorem table_needs_every_column (candles : list json)
    (start_time_dt end_time_dt : datetime) (df : DataFrame) :
  candles <> [] ->
  Candles.table_of candles start_time_dt end_time_dt = Returned df ->
  (forall j, j ∈ candles -> exists m, j = JObj m)
  /\ forall c, c ∈ Candles.OHLC_COLUMNS ->
       exists m, JObj m ∈ candles /\ is_Some (m !! c).
Proof.
  intros Hne Hdf.
  destruct candles as [|j0 candles]; [done|]. unfold Candles.table_of in Hdf.
  apply assemble_detail in Hdf as (dicts & converted & -> & _ & Hlabels & _).
  split.
  - intros j Hj. apply list_elem_of_fmap in Hj as (m & -> & _). eauto.
  - intros c Hc. apply Hlabels, label_of_some_ticker in Hc as (m & Hm & Hc).
    exists m. split; [|done]. by apply list_elem_of_fmap_2.
Qed.

(** When no gathered candle has a [time] field, [df['time']] raises
    [KeyError], which leaves the function. *)
Theorem absent_time_raises_KeyError (dicts : list (gmap string json))
    (start_time_dt end_time_dt : datetime) :
  dicts <> [] ->
  (forall m, m ∈ dicts -> m !! "time" = None) ->
  Candles.table_of (JObj <$> dicts) start_time_dt end_time_dt
  = Raised KeyError.
Proof.
  intros Hne Hnone.
  destruct dicts as [|m0 dicts]; [done|].
  rewrite fmap_cons. cbv iota beta delta [Candles.table_of].
  rewrite <- fmap_cons. unfold Candles.assemble.
  rewrite DataFrame_of_dicts, bind_Returned.
  set (labels := (⋃ (dom <$> (m0 :: dicts)) : gset string)).
  assert (Hout : "time" ∉ elements labels).
  { intros Hin. apply elem_of_elements, label_of_some_ticker in Hin
      as (m & Hm & [v Hv]).
    by rewrite (Hnone m Hm) in Hv. }
  unfold Pandas.getcol. cbn [columns].
  by rewrite decide_False.
Qed.

End TableContents.

Lemma table_instants_witness :
  Some (Example.DAY0 * 1000000000)
    ∈ Pandas.time_of "time" <$> rows Example.ten_day_table
  <->
  (Datetime.us_since_epoch Example.window_start * 1000
     <= Example.DAY0 * 1000000000
     <= Datetime.us_since_epoch Example.window_end * 1000)
  /\ exists m,
       JObj m ∈ Example.daily_candles
       /\ Pandas.to_datetime_cell (H := Example.strict_pandas)
            (Spec.ticker_cell m "time")
          = Returned (Timestamp (Example.DAY0 * 1000000000)).
Proof.
  apply (table_holds_window_instants (H := Example.strict_pandas)
           Example.daily_candles Example.window_start Example.window_end
           Example.ten_day_table (Example.DAY0 * 1000000000)).
  vm_compute. reflexivity.
Defined.

Lemma table_row_witness :
  exists (i : nat) (m : gmap string json),
    Example.daily_candles !! i = Some (JObj m)
    /\ Pandas.to_datetime_cell (H := Example.strict_pandas)
         (Spec.ticker_cell m "time")
       = Returned (Timestamp (Example.DAY0 * 1000000000))
    /\ (forall (j : nat) (m' : gmap string json),
          (j < i)%nat ->
          Example.daily_candles !! j = Some (JObj m') ->
          Pandas.to_datetime_cell (H := Example.strict_pandas)
            (Spec.ticker_cell m' "time")
          <> Returned (Timestamp (Example.DAY0 * 1000000000)))
    /\ forall c, c ∈ ["open"; "high"; "low"; "close"; "volume"] ->
                 Example.table_row Example.DAY0 !! c
                 = Some (Spec.ticker_cell m c).
Proof.
  apply (table_row_is_first_candle (H := Example.strict_pandas)
           Example.daily_candles Example.window_start Example.window_end
           Example.ten_day_table (Example.table_row Example.DAY0)
           (Example.DAY0 * 1000000000)).
  - vm_compute. reflexivity.
  - simpl. left.
  - vm_compute. reflexivity.
Defined.

Lemma table_columns_witness :
  (forall j, j ∈ Example.daily_candles -> exists m, j = JObj m)
  /\ forall c, c ∈ Candles.OHLC_COLUMNS ->
       exists m, JObj m ∈ Example.daily_candles /\ is_Some (m !! c).
Proof.
  apply (table_needs_every_column (H := Example.strict_pandas)
           Example.daily_candles Example.window_start Example.window_end
           Example.ten_day_table).
  - discriminate.
  - vm_compute. reflexivity.
Defined.

Lemma absent_time_witness :
  Candles.table_of (H := Example.strict_pandas)
    (JObj <$> [list_to_map [("open", JInt 100); ("close", JInt 105)]])
    Example.window_start Example.window_end
  = Raised KeyError.
Proof.
  apply (absent_time_raises_KeyError (H := Example.strict_pandas)
           [list_to_map [("open", JInt 100); ("close", JInt 105)]]
           Example.window_start Example.window_end).
  - discriminate.
  - intros m Hm. apply list_elem_of_singleton in Hm as ->.
    vm_compute. reflexivity.
Defined.
